(** * MGNREGA dashboard: the data shaping logic of [src/App.js]

    The dashboard is a React view.  What it computes is small: a number
    formatter, the fetch-or-fallback update of the district view, the
    geolocation heuristic, the two comparison tables and the language flag.
    Each of these is embedded below as the source writes it and then
    checked against the written specification.

    JavaScript numbers are IEEE 754 binary64 values.  They are modelled by
    the Standard Library's [spec_float] at precision 53, exponent bound
    1024, so [/], [*], [+] and the comparisons round and order exactly as
    the engine does. *)

From Stdlib Require Import ZArith String Ascii List Bool Lia.
From Stdlib Require Import Floats.SpecFloat.
From Stdlib Require Import DecimalString.
Import ListNotations.

Local Open Scope string_scope.
Local Open Scope Z_scope.

(* ================================================================== *)
(** ** Numbers *)
(* ================================================================== *)

Module JSNumber.

Definition number : Type := spec_float.

Definition prec : Z := 53.
Definition emax : Z := 1024.

(** The number denoted by an integer literal (exact below 2^53). *)
Definition of_Z (z : Z) : number := binary_normalize prec emax z 0 false.

Definition NaN : number := S754_nan.
Definition pos_infinity : number := S754_infinity false.

Definition add (x y : number) : number := SFadd prec emax x y.
Definition mul (x y : number) : number := SFmul prec emax x y.
Definition div (x y : number) : number := SFdiv prec emax x y.

(** [x >= y] and [x < y]; both are false as soon as one side is NaN. *)
Definition geb (x y : number) : bool := SFleb y x.
Definition ltb (x y : number) : bool := SFltb x y.

(** ToBoolean on a number: false for +0, -0 and NaN. *)
Definition truthy (x : number) : bool :=
  match x with
  | S754_zero _ | S754_nan => false
  | _ => true
  end.

(** [floor (z * 2^e + 1/2)]: the integer nearest to [z * 2^e], the larger
    one when two are equally near. *)
Definition round_half_up (z e : Z) : Z :=
  if 0 <=? e then z * 2 ^ e
  else (2 * z + 2 ^ (- e)) / 2 ^ (1 - e).

(** The remainder [n % d]: the sign of the dividend, magnitude below the
    divisor, computed exactly. *)
Definition rem (n d : number) : number :=
  match n, d with
  | S754_nan, _ | _, S754_nan => S754_nan
  | S754_infinity _, _ => S754_nan
  | _, S754_zero _ => S754_nan
  | _, S754_infinity _ => n
  | S754_zero _, _ => n
  | S754_finite sn mn en, S754_finite _ md ed =>
      let ez := Z.min en ed in
      let a := Zpos mn * 2 ^ (en - ez) in
      let b := Zpos md * 2 ^ (ed - ez) in
      let r := a mod b in
      if r =? 0 then S754_zero sn
      else binary_normalize prec emax (if sn then - r else r) ez false
  end.

(** [Math.round]: nearest integer, halves go towards +infinity; an
    argument in [-0.5, 0) and -0 itself give -0. *)
Definition Math_round (x : number) : number :=
  match x with
  | S754_finite s m e =>
      if 0 <=? e then x
      else
        let n := round_half_up (if s then Zneg m else Zpos m) e in
        if n =? 0 then S754_zero s else of_Z n
  | _ => x
  end.

Definition is_digit (c : ascii) : bool :=
  let n := N_of_ascii c in ((48 <=? n) && (n <=? 57))%N.

Definition digit_value (c : ascii) : Z := Z.of_N (N_of_ascii c) - 48.

Definition is_space (c : ascii) : bool :=
  let n := N_of_ascii c in
  ((n =? 32) || ((9 <=? n) && (n <=? 13)))%N.

(** The value of a digit in the given radix (10 or 16), if it is one. *)
Definition digit_in (radix : Z) (c : ascii) : option Z :=
  let n := Z.of_N (N_of_ascii c) in
  if is_digit c then Some (digit_value c)
  else if (radix =? 16) && (97 <=? n) && (n <=? 102) then Some (n - 87)
  else if (radix =? 16) && (65 <=? n) && (n <=? 70) then Some (n - 55)
  else None.

(** The value of the longest prefix of digits, with the number of digits
    read. *)
Fixpoint read_digits (radix : Z) (s : string) (acc : Z) (seen : nat) : Z * nat :=
  match s with
  | String c s' =>
      match digit_in radix c with
      | Some d => read_digits radix s' (radix * acc + d) (S seen)
      | None => (acc, seen)
      end
  | EmptyString => (acc, seen)
  end.

Fixpoint skip_spaces (s : string) : string :=
  match s with
  | String c s' => if is_space c then skip_spaces s' else s
  | EmptyString => s
  end.

(** [parseInt(s)] with no radix argument: blanks are skipped, a sign is
    read, a [0x] prefix selects radix 16, then the digits are read; with
    no digit the result is NaN. *)
Definition parseInt (s : string) : number :=
  let s1 := skip_spaces s in
  let '(neg, s2) :=
    match s1 with
    | String "-" r => (true, r)
    | String "+" r => (false, r)
    | _ => (false, s1)
    end in
  let '(radix, s3) :=
    match s2 with
    | String "0" (String "x" r) | String "0" (String "X" r) => (16, r)
    | _ => (10, s2)
    end in
  let '(v, seen) := read_digits radix s3 0 O in
  match seen with
  | O => NaN
  | _ => if v =? 0 then S754_zero neg else of_Z (if neg then - v else v)
  end.

Definition digits (n : Z) : string :=
  NilZero.string_of_uint (N.to_uint (Z.to_N n)).

Definition ten_pow_21 : number := of_Z (10 ^ 21).

Arguments of_Z : simpl never.
Arguments ten_pow_21 : simpl never.

Section Engine.

(** Two conversions are left to the engine by the language standard: the
    shortest decimal form of a finite number (its last digit is not fixed
    by the standard) and the locale's grouping of digits. *)
Variable shortest_decimal : number -> string.
Variable toLocaleString : number -> string.

(** [Number::toString] in radix 10. *)
Definition Number_toString (x : number) : string :=
  match x with
  | S754_nan => "NaN"
  | S754_zero _ => "0"
  | S754_infinity s => if s then "-Infinity" else "Infinity"
  | S754_finite s m e =>
      (if s then "-" else "") ++ shortest_decimal (S754_finite false m e)
  end.

(** [x.toFixed(1)].  A number that is not finite prints as [toString]
    does; a magnitude of 10^21 or more also does; otherwise the integer
    [n] with [n / 10] nearest to the magnitude is printed with a point
    before its last digit. *)
Definition toFixed1 (x : number) : string :=
  match x with
  | S754_finite s m e =>
      let sign := if s then "-" else "" in
      if geb (S754_finite false m e) ten_pow_21
      then sign ++ Number_toString (S754_finite false m e)
      else
        let n := round_half_up (10 * Zpos m) e in
        sign ++ digits (n / 10) ++ "." ++ digits (n mod 10)
  | S754_zero _ => "0.0"
  | _ => Number_toString x
  end.

End Engine.

End JSNumber.

Import JSNumber.

Notation "# z" := (of_Z z) (at level 1, format "# z").

(* ================================================================== *)
(** ** Strings *)
(* ================================================================== *)

Module JSString.

(** ToBoolean on a string: only the empty string is false. *)
Definition truthy (s : string) : bool :=
  match s with
  | EmptyString => false
  | _ => true
  end.

(** The capital of a letter a to z; any other byte is kept. *)
Definition upper_ascii (c : ascii) : ascii :=
  let n := N_of_ascii c in
  if ((97 <=? n) && (n <=? 122))%N then ascii_of_N (n - 32) else c.

(** The characters outside ASCII whose upper-case form has an ASCII
    letter in it, each with that form, in UTF-8: the dotless i (U+0131)
    and the long s (U+017F) of Unicode's character table, and the
    unconditional entries of its special casing that produce a Latin
    letter: the sharp s (U+00DF), U+0149, U+01F0, U+1E96 to U+1E9A and
    the ligatures U+FB00 to U+FB06. *)
Definition special_casing : list (string * string) := [
  ("ı", "I");
  ("ſ", "S");
  ("ß", "SS");
  ("ŉ", "ʼN");
  ("ǰ", "J̌");
  ("ẖ", "H̱");
  ("ẗ", "T̈");
  ("ẘ", "W̊");
  ("ẙ", "Y̊");
  ("ẚ", "Aʾ");
  ("ﬀ", "FF");
  ("ﬁ", "FI");
  ("ﬂ", "FL");
  ("ﬃ", "FFI");
  ("ﬄ", "FFL");
  ("ﬅ", "ST");
  ("ﬆ", "ST")
].

Definition special_upper (key : string) : option string :=
  option_map snd (find (fun entry => String.eqb (fst entry) key) special_casing).

(** [s.toUpperCase()], on the UTF-8 bytes of [s].  A letter a to z
    becomes its capital; a character of [special_casing], two or three
    bytes long, becomes its upper-case form; every other byte is kept.
    The ASCII characters of the result are those of the upper-case form
    and stand between the same characters: a character outside ASCII
    that is not in the table has an upper-case form without an ASCII
    character, and is left as it stands.  So a text of ASCII characters,
    as every district name is, occurs in the result exactly when it
    occurs in the upper-case form. *)
Fixpoint toUpperCase (s : string) : string :=
  match s with
  | EmptyString => EmptyString
  | String a s1 =>
      let plain := String (upper_ascii a) (toUpperCase s1) in
      match s1 with
      | EmptyString => plain
      | String b s2 =>
          match special_upper (String a (String b EmptyString)) with
          | Some up => up ++ toUpperCase s2
          | None =>
              match s2 with
              | EmptyString => plain
              | String c s3 =>
                  match special_upper (String a (String b (String c EmptyString))) with
                  | Some up => up ++ toUpperCase s3
                  | None => plain
                  end
              end
          end
      end
  end.

(** [s.includes(t)]: [t] occurs somewhere in [s]. *)
Fixpoint includes (s t : string) : bool :=
  if String.prefix t s then true
  else
    match s with
    | String _ s' => includes s' t
    | EmptyString => false
    end.

(** [s.split(' ')[0]]: the characters before the first space. *)
Fixpoint first_token (s : string) : string :=
  match s with
  | String c s' => if Ascii.eqb c " " then EmptyString else String c (first_token s')
  | EmptyString => EmptyString
  end.

(** [s.slice(-1)]: the last character, or the empty string. *)
Fixpoint slice_last (s : string) : string :=
  match s with
  | String c EmptyString => s
  | String _ s' => slice_last s'
  | EmptyString => EmptyString
  end.

End JSString.

(* ================================================================== *)
(** ** Mock data *)
(* ================================================================== *)

Record District : Type := {
  district_code : string;
  district_name : string
}.

Record TimeseriesPoint : Type := {
  month : string;
  households : number;
  persondays : number;
  expenditure : number
}.

Definition SAMPLE_DISTRICTS : list District := [
  {| district_code := "0501"; district_name := "PATNA" |};
  {| district_code := "0502"; district_name := "NALANDA" |};
  {| district_code := "0506"; district_name := "JEHANABAD" |};
  {| district_code := "0518"; district_name := "SAMASTIPUR" |};
  {| district_code := "0544"; district_name := "SUPAUL" |};
  {| district_code := "0504"; district_name := "ROHTAS" |};
  {| district_code := "0508"; district_name := "NAWADA" |};
  {| district_code := "0513"; district_name := "PURBI CHAMPARAN" |};
  {| district_code := "0520"; district_name := "MADHUBANI" |};
  {| district_code := "0541"; district_name := "ARARIA" |}
].

Definition SAMPLE_TIMESERIES : list TimeseriesPoint := [
  {| month := "Apr"; households := #90000; persondays := #300000; expenditure := #12000 |};
  {| month := "May"; households := #92000; persondays := #320000; expenditure := #13000 |};
  {| month := "Jun"; households := #87000; persondays := #310000; expenditure := #12500 |};
  {| month := "Jul"; households := #94000; persondays := #330000; expenditure := #14000 |};
  {| month := "Aug"; households := #96000; persondays := #340000; expenditure := #15000 |};
  {| month := "Sep"; households := #88000; persondays := #300000; expenditure := #11800 |};
  {| month := "Oct"; households := #91000; persondays := #315000; expenditure := #12700 |};
  {| month := "Nov"; households := #93000; persondays := #325000; expenditure := #13200 |};
  {| month := "Dec"; households := #87155; persondays := #3443327; expenditure := #15209 |}
].

(* ================================================================== *)
(** ** Compare page: mock series per district *)
(* ================================================================== *)

(** [code ? (parseInt(code.slice(-1)) % 5) + 8 : 10] *)
Definition factor (code : string) : number :=
  if JSString.truthy code
  then add (rem (parseInt (JSString.slice_last code)) #5) #8
  else #10.

Definition getMock (code : string) : list TimeseriesPoint :=
  let base := map (fun s => s) SAMPLE_TIMESERIES in
  map (fun b =>
         {| month := month b;
            households := households b;
            persondays := Math_round (div (mul (persondays b) (factor code)) #10);
            expenditure := Math_round (div (mul (expenditure b) (factor code)) #10) |})
      base.

(* ================================================================== *)
(** ** Values held in view state and objects built at run time *)
(* ================================================================== *)

(** A JavaScript value as far as the view holds one: the result of
    parsing a response body, or an object literal of the source.  An
    object is its list of properties, each key once, in insertion order. *)
#[local] Set Warnings "-register-all".

Inductive value : Type :=
| VUndefined
| VNull
| VBool (b : bool)
| VNum (x : number)
| VStr (s : string)
| VArr (items : list value)
| VObj (fields : list (string * value)).

Module JSValue.

(** ToBoolean. *)
Definition truthy (v : value) : bool :=
  match v with
  | VUndefined | VNull => false
  | VBool b => b
  | VNum x => JSNumber.truthy x
  | VStr s => JSString.truthy s
  | VArr _ | VObj _ => true
  end.

(** [a || b]. *)
Definition or (a b : value) : value := if truthy a then a else b.

Fixpoint lookup (fields : list (string * value)) (key : string) : option value :=
  match fields with
  | (k, v) :: rest => if String.eqb k key then Some v else lookup rest key
  | [] => None
  end.

(** [o[key] = v] on an object's properties: an existing key keeps its
    place, a new key goes last. *)
Fixpoint assign (fields : list (string * value)) (key : string) (v : value)
  : list (string * value) :=
  match fields with
  | (k, w) :: rest =>
      if String.eqb k key then (k, v) :: rest else (k, w) :: assign rest key v
  | [] => [(key, v)]
  end.

(** [v.key] for a key that no prototype defines: a property of an object,
    [undefined] on any other value that has properties, and a TypeError
    ([None]) on [null] and [undefined]. *)
Definition get (v : value) (key : string) : option value :=
  match v with
  | VUndefined | VNull => None
  | VObj fields =>
      match lookup fields key with
      | Some w => Some w
      | None => Some VUndefined
      end
  | _ => Some VUndefined
  end.

End JSValue.

Definition value_of_point (p : TimeseriesPoint) : value :=
  VObj [("month", VStr (month p));
        ("households", VNum (households p));
        ("persondays", VNum (persondays p));
        ("expenditure", VNum (expenditure p))].

Definition value_of_series (l : list TimeseriesPoint) : value :=
  VArr (map value_of_point l).

(* ================================================================== *)
(** ** Helper: friendly number formatter *)
(* ================================================================== *)

Section Formatter.

(** The engine's conversions that the standard leaves open or that depend
    on the locale: the shortest decimal form of a number, the locale's
    form of a number, the number a string denotes ([StringToNumber], NaN
    when it denotes none) and the separator that
    [Array.prototype.toLocaleString] puts between elements. *)
Variable shortest_decimal : number -> string.
Variable toLocaleString : number -> string.
Variable StringToNumber : string -> number.
Variable list_separator : string.

(** An own property of an object.  The values here come out of
    [JSON.parse] or are number literals, so a property holds data and
    never a function: an own [toString] or [toLocaleString] hides the
    inherited method behind something that cannot be called. *)
Definition has_own (fields : list (string * value)) (key : string) : bool :=
  match JSValue.lookup fields key with
  | Some _ => true
  | None => false
  end.

(** The elements joined by a separator; [None] when computing one of
    them throws. *)
Fixpoint join_with (sep : string) (parts : list (option string)) : option string :=
  match parts with
  | [] => Some ""
  | [part] => part
  | part :: rest =>
      match part, join_with sep rest with
      | Some a, Some b => Some (a ++ sep ++ b)
      | _, _ => None
      end
  end.

(** [ToString].  An array joins its elements with a comma, [null] and
    [undefined] elements counting as empty; an object is
    ["[object Object]"] unless an own [toString] hides the method, in
    which case the conversion throws ([None]). *)
Fixpoint ToString (v : value) : option string :=
  match v with
  | VUndefined => Some "undefined"
  | VNull => Some "null"
  | VBool b => Some (if b then "true" else "false")
  | VNum x => Some (Number_toString shortest_decimal x)
  | VStr s => Some s
  | VArr items =>
      join_with ","
        (map (fun item =>
                match item with
                | VUndefined | VNull => Some ""
                | _ => ToString item
                end)
             items)
  | VObj fields =>
      if has_own fields "toString" then None else Some "[object Object]"
  end.

(** [ToNumber], as the operators [>=] and [/] apply it: an array and an
    object go through their string form. *)
Definition ToNumber (v : value) : option number :=
  match v with
  | VUndefined => Some NaN
  | VNull => Some (S754_zero false)
  | VBool b => Some (if b then #1 else S754_zero false)
  | VNum x => Some x
  | VStr s => Some (StringToNumber s)
  | VArr _ =>
      match ToString v with
      | Some s => Some (StringToNumber s)
      | None => None
      end
  | VObj fields => if has_own fields "toString" then None else Some NaN
  end.

(** [v.toLocaleString()].  Only a number has a locale form of its own; a
    boolean and a string print as [toString] does; an array joins the
    locale forms of its elements; an object prints as [toString] does
    unless an own [toLocaleString] or [toString] hides the method, and
    then the call throws. *)
Fixpoint invoke_toLocaleString (v : value) : option string :=
  match v with
  | VUndefined | VNull => None
  | VBool b => Some (if b then "true" else "false")
  | VNum x => Some (toLocaleString x)
  | VStr s => Some s
  | VArr items =>
      join_with list_separator
        (map (fun item =>
                match item with
                | VUndefined | VNull => Some ""
                | _ => invoke_toLocaleString item
                end)
             items)
  | VObj fields =>
      if has_own fields "toLocaleString" then None
      else if has_own fields "toString" then None
      else Some "[object Object]"
  end.

(** [formatNumber(n)]; [None] when it throws a TypeError. *)
Definition formatNumber (n : value) : option string :=
  match n with
  | VNull | VUndefined => Some "—"
  | _ =>
      match ToNumber n with
      | Some x =>
          if geb x #10000000
          then Some (toFixed1 shortest_decimal (div x #10000000) ++ " Cr")
          else if geb x #100000
          then Some (toFixed1 shortest_decimal (div x #100000) ++ " L")
          else invoke_toLocaleString n
      | None => None
      end
  end.

End Formatter.

(* ================================================================== *)
(** ** State Comparison page *)
(* ================================================================== *)

Definition year_data : Type := list (string * list TimeseriesPoint).

Definition mockStateData : year_data := [
  ("2023-24", SAMPLE_TIMESERIES);
  ("2024-25",
   map (fun d =>
          {| month := month d;
             households := households d;
             persondays := add (persondays d) #5000;
             expenditure := add (expenditure d) #1000 |})
       SAMPLE_TIMESERIES)
].

(** [data[year]] for a year among the stored keys or the years the page
    offers: the series stored under that key, if any.  Such a key names
    no property that every object has, so the stored keys are all there
    is to look at. *)
Fixpoint year_series (data : year_data) (year : string) : option (list TimeseriesPoint) :=
  match data with
  | (y, series) :: rest => if String.eqb y year then Some series else year_series rest year
  | [] => None
  end.

Definition months : list string :=
  ["Apr"; "May"; "Jun"; "Jul"; "Aug"; "Sep"; "Oct"; "Nov"; "Dec"; "Jan"; "Feb"; "Mar"].

(** [data[year]?.find(m => m.month === month)?.expenditure || 0] *)
Definition expenditure_or_zero (data : year_data) (year mth : string) : number :=
  match year_series data year with
  | Some series =>
      match find (fun m => String.eqb (month m) mth) series with
      | Some m => if JSNumber.truthy (expenditure m) then expenditure m else #0
      | None => #0
      end
  | None => #0
  end.

Definition combinedData (selectedYears : list string) (data : year_data)
  : list (list (string * value)) :=
  map (fun mth =>
         fold_left
           (fun point year =>
              JSValue.assign point year (VNum (expenditure_or_zero data year mth)))
           selectedYears
           [("month", VStr mth)])
      months.

Record StateComparisonState : Type := {
  selectedYears : list string;
  data : year_data
}.

(** The page after its mount effect has stored the mock data. *)
Definition StateComparison_mounted : StateComparisonState :=
  {| selectedYears := ["2023-24"; "2024-25"]; data := mockStateData |}.

(* ================================================================== *)
(** ** Dashboard page *)
(* ================================================================== *)

(** The state of the [Dashboard] component together with the alerts shown
    so far, oldest first. *)
Record Dashboard : Type := {
  district : string;
  districtInfo : value;
  timeseries : value;
  alerts : list string
}.

Definition Dashboard_initial : Dashboard :=
  {| district := "";
     districtInfo := VNull;
     timeseries := value_of_series SAMPLE_TIMESERIES;
     alerts := [] |}.

(** Handlers run over the component: a step either returns ([Some]) or
    throws ([None]), and leaves the component as it made it. *)
Definition handler (A : Type) : Type := Dashboard -> option A * Dashboard.

Definition ret {A : Type} (a : A) : handler A := fun st => (Some a, st).

Definition throw {A : Type} : handler A := fun st => (None, st).

Definition bind {A B : Type} (m : handler A) (k : A -> handler B) : handler B :=
  fun st =>
    match m st with
    | (Some a, st') => k a st'
    | (None, st') => (None, st')
    end.

(** [try { body } catch { recover }], and a promise chain ending in
    [.catch(recover)]. *)
Definition try_catch (body : handler unit) (recover : handler unit) : handler unit :=
  fun st =>
    match body st with
    | (Some _, st') => (Some tt, st')
    | (None, st') => recover st'
    end.

Declare Scope handler_scope.
Delimit Scope handler_scope with handler.
Notation "x <- m ;; k" := (bind m (fun x => k))
  (at level 61, m at next level, right associativity) : handler_scope.
Notation "m ;; k" := (bind m (fun _ => k))
  (at level 61, right associativity) : handler_scope.

Definition lift {A : Type} (o : option A) : handler A := fun st => (o, st).

Definition setDistrict (code : string) : handler unit :=
  fun st =>
    (Some tt, {| district := code; districtInfo := districtInfo st;
                 timeseries := timeseries st; alerts := alerts st |}).

Definition setDistrictInfo (v : value) : handler unit :=
  fun st =>
    (Some tt, {| district := district st; districtInfo := v;
                 timeseries := timeseries st; alerts := alerts st |}).

Definition setTimeseries (v : value) : handler unit :=
  fun st =>
    (Some tt, {| district := district st; districtInfo := districtInfo st;
                 timeseries := v; alerts := alerts st |}).

Definition alert (message : string) : handler unit :=
  fun st =>
    (Some tt, {| district := district st; districtInfo := districtInfo st;
                 timeseries := timeseries st; alerts := alerts st ++ [message] |}).

(** How a request ends: the transport fails, or a response arrives whose
    body parses as JSON ([Some]) or does not ([None]). *)
Inductive response : Type :=
| NetworkError
| Body (parsed : option value).

(** [fetch(url).then(res => res.json())] *)
Definition fetch_json (r : response) : handler value :=
  match r with
  | NetworkError => throw
  | Body parsed => lift parsed
  end.

Definition find_district (code : string) : option District :=
  find (fun d => String.eqb (district_code d) code) SAMPLE_DISTRICTS.

(** [SAMPLE_DISTRICTS.find(...)?.district_name || 'Unknown'] *)
Definition fallback_name (code : string) : string :=
  match find_district code with
  | Some d => if JSString.truthy (district_name d) then district_name d else "Unknown"
  | None => "Unknown"
  end.

(** The literal 100.74 denotes the double nearest to it. *)
Definition lit_100_74 : number := S754_finite false 7088947288457871 (-46).

Definition fallback_kpis (code : string) : value :=
  VObj [("district_name", VStr (fallback_name code));
        ("Total_Individuals_Worked", VNum #90928);
        ("Total_Households_Worked", VNum #87155);
        ("Total_Exp", VNum #15209);
        ("Women_Persondays", VNum #1696959);
        ("Average_days_of_employment_provided_per_Household", VNum #39);
        ("percentage_payments_gererated_within_15_days", VNum lit_100_74)].

Local Open Scope handler_scope.

(** The effect that runs when [district] has changed to [code], given how
    its request ends.  [code] is the value the effect closed over. *)
Definition district_effect (code : string) (r : response) : handler unit :=
  if negb (JSString.truthy code) then ret tt
  else
    try_catch
      (data <- fetch_json r ;;
       kpis <- lift (JSValue.get data "kpis") ;;
       setDistrictInfo kpis ;;
       series <- lift (JSValue.get data "timeseries") ;;
       setTimeseries (JSValue.or series (VArr [])))
      (alert "Failed to fetch live data, showing sample instead." ;;
       setDistrictInfo (fallback_kpis code) ;;
       setTimeseries (value_of_series SAMPLE_TIMESERIES)).

(** What the device answers to a position request. *)
Inductive geolocation : Type :=
| GeoUnsupported
| GeoDenied
| GeoPosition (reverse : response).

(** [locality.toUpperCase().includes(token)]: a TypeError unless
    [locality] is a string. *)
Definition upper_includes (locality : value) (token : string) : handler bool :=
  match locality with
  | VStr s => ret (JSString.includes (JSString.toUpperCase s) token)
  | _ => throw
  end.

(** [list.find(pred)] with a predicate that may throw. *)
Fixpoint find_with {A : Type} (pred : A -> handler bool) (l : list A)
  : handler (option A) :=
  match l with
  | x :: rest =>
      b <- pred x ;;
      if b then ret (Some x) else find_with pred rest
  | [] => ret None
  end.

Definition match_district (locality : value) : handler (option District) :=
  find_with
    (fun d =>
       if negb (JSValue.truthy locality) then ret false
       else upper_includes locality (JSString.first_token (district_name d)))
    SAMPLE_DISTRICTS.

(** The same search on a locality that is a string: no step of it can
    throw. *)
Definition first_match (locality : string) : option District :=
  find (fun d =>
          JSString.includes (JSString.toUpperCase locality)
                            (JSString.first_token (district_name d)))
       SAMPLE_DISTRICTS.

(** [jd.locality || jd.city || jd.principalSubdivision]; a TypeError
    ([None]) when [jd] is [null]. *)
Definition locality_of (jd : value) : option value :=
  match JSValue.get jd "locality" with
  | Some a =>
      if JSValue.truthy a then Some a
      else
        match JSValue.get jd "city" with
        | Some b =>
            if JSValue.truthy b then Some b
            else JSValue.get jd "principalSubdivision"
        | None => None
        end
  | None => None
  end.

Definition handleDetect (geo : geolocation) : handler unit :=
  match geo with
  | GeoUnsupported => alert "Geolocation not available on this device"
  | GeoDenied => alert "Location permission denied or unavailable"
  | GeoPosition r =>
      try_catch
        (jd <- fetch_json r ;;
         locality <- lift (locality_of jd) ;;
         found <- match_district locality ;;
         match found with
         | Some d => setDistrict (district_code d)
         | None => alert "Could not auto-detect district. Please select from list."
         end)
        (alert "Auto-detect failed — please select manually.")
  end.

Local Close Scope handler_scope.

(* ================================================================== *)
(** ** Language flag and the labels of each page *)
(* ================================================================== *)

(** The flag holds ['en'] or ['hi']; it starts at ['en'] and only the
    header button changes it. *)
Inductive language : Type := en | hi.

(** A text the page shows: written as it stands, or as
    [lang === 'hi' ? hi_text : en_text]. *)
Inductive label : Type :=
| Fixed (text : string)
| ByLang (hi_text en_text : string).

Definition render (lang : language) (l : label) : string :=
  match l with
  | Fixed text => text
  | ByLang hi_text en_text =>
      match lang with
      | hi => hi_text
      | en => en_text
      end
  end.

(** [setLang(lang === 'hi' ? 'en' : 'hi')] *)
Definition toggle (lang : language) : language :=
  match lang with
  | hi => en
  | en => hi
  end.

Definition dquote : string := String (ascii_of_nat 34) EmptyString.

Definition Header : list label := [
  Fixed "MG";
  Fixed "MGNREGA — District View";
  Fixed "Simple, local-friendly insights";
  ByLang "मुख्‍य पृष्ठ" "Home";
  ByLang "राज्य तुलना" "State Comparison";
  ByLang "तुलना" "Compare";
  ByLang "जानकारी" "About";
  ByLang "EN" "हिन्दी"
].

Definition DistrictSelector (districts : list District) : list label :=
  [Fixed "Select District"; Fixed "-- Choose district --"]
  ++ map (fun d => Fixed (district_name d)) districts
  ++ [Fixed "Detect my district"].

(** The label texts of the dashboard's JSX, for a render that completes:
    the labels of the cards and charts are there while [districtInfo] is
    truthy.  The values the render computes from the snapshot, through
    [formatNumber], are no labels and are not listed. *)
Definition Dashboard_labels (st : Dashboard) : list label :=
  [ByLang "जिला प्रदर्शन" "District Performance"]
  ++ DistrictSelector SAMPLE_DISTRICTS
  ++ (if negb (JSString.truthy (district st))
      then [Fixed ("Select a district or use " ++ dquote ++ "Detect my district"
                   ++ dquote ++ " to begin.")]
      else [])
  ++ (if JSValue.truthy (districtInfo st)
      then [ByLang "कुल व्यक्ति" "Total Individuals";
            ByLang "कुल लोगों ने काम किया" "Total individuals worked";
            ByLang "कुल खर्च (लाख)" "Total Expenditure";
            ByLang "कुल खर्च" "Total exp (last month)";
            ByLang "औसत दिनों/घरेलू" "Avg days/HH";
            ByLang "औसत रोजगार दिन" "Average days of employment";
            ByLang "मासिक व्यक्ति-दिन (Persondays)" "Monthly Persondays";
            ByLang "मासिक खर्च" "Monthly Expenditure";
            ByLang "सारांश" "Summary";
            ByLang "यह डेटा सार्वजनिक स्रोत से लिया गया है और समय-समय पर अपडेट किया जाएगा। अगर API डाउन है, तो पिछला स्टोर किया गया डेटा दिखेगा।"
                   "This data is sourced from public APIs and will be refreshed periodically. If the upstream API is down, the last stored snapshot will be shown."]
      else []).

Definition StateComparison_labels : list label :=
  [Fixed "State Performance Comparison"]
  ++ map (fun entry => Fixed (fst entry)) mockStateData
  ++ [Fixed "Monthly Expenditure"; Fixed "Total Households Worked"].

Definition district_options : list label :=
  Fixed "Select district" :: map (fun d => Fixed (district_name d)) SAMPLE_DISTRICTS.

Definition Compare_labels : list label :=
  [ByLang "जिला तुलना" "Compare Districts";
   ByLang "पहला जिला" "First district"]
  ++ district_options
  ++ [Fixed "Monthly persondays";
      ByLang "दूसरा जिला" "Second district"]
  ++ district_options
  ++ [Fixed "Monthly persondays";
      Fixed "Side-by-side numbers";
      Fixed "District A: ";
      Fixed "District B: ";
      Fixed "Tip: compare persondays and expenditure to see workload vs spend."].

Definition About_labels : list label := [
  ByLang "MGNREGA क्या है?" "What is MGNREGA?";
  ByLang "MGNREGA एक ग्रामीण रोजगार गारंटी योजना है। यह साइट आपके जिले के प्रदर्शन को सरल भाषा और चार्ट में दिखाती है।"
         "MGNREGA is a rural employment guarantee scheme. This site presents district performance in simple language and charts."
].

Definition Contact_labels : list label := [
  ByLang "संपर्क करें" "Contact / Feedback";
  ByLang "सरल प्रतिक्रिया फॉर्म" "Simple feedback form — stores to backend or sends email.";
  ByLang "नाम" "Name";
  ByLang "मोबाइल / ईमेल" "Mobile / Email";
  ByLang "संदेश" "Message";
  ByLang "जमा करें" "Submit"
].

Definition footer : list label :=
  [Fixed "Built for Bihar — demo UI • Replace mock data with backend API for full app"].

Inductive route : Type :=
| HomeRoute
| StateComparisonRoute
| CompareRoute
| AboutRoute
| ContactRoute.

(** The application: the flag held by [App], the route shown, and the
    state of the three pages that hold any. *)
Record App : Type := {
  lang : language;
  current : route;
  home : Dashboard;
  years : StateComparisonState;
  d1 : string;
  d2 : string
}.

Definition setLang (l : language) (app : App) : App :=
  {| lang := l; current := current app; home := home app;
     years := years app; d1 := d1 app; d2 := d2 app |}.

(** The click handler of the header button. *)
Definition toggle_language (app : App) : App := setLang (toggle (lang app)) app.

Definition page_labels (app : App) : list label :=
  match current app with
  | HomeRoute => Dashboard_labels (home app)
  | StateComparisonRoute => StateComparison_labels
  | CompareRoute => Compare_labels
  | AboutRoute => About_labels
  | ContactRoute => Contact_labels
  end.

Definition screen_labels (app : App) : list label :=
  Header ++ page_labels app ++ footer.

(** The texts on screen, top to bottom. *)
Definition screen_texts (app : App) : list string :=
  map (render (lang app)) (screen_labels app).

(** [data[year]?.reduce((sum, m) => sum + (m.households || 0), 0)] *)
Definition total_households (data : year_data) (year : string) : value :=
  match year_series data year with
  | Some series =>
      VNum (fold_left
              (fun sum m =>
                 add sum (if JSNumber.truthy (households m) then households m else #0))
              series #0)
  | None => VUndefined
  end.

(** The numeric data the page on screen hands to its cards and charts. *)
Definition screen_data (app : App) : list value :=
  match current app with
  | HomeRoute => [districtInfo (home app); timeseries (home app)]
  | StateComparisonRoute =>
      [VArr (map VObj (combinedData (selectedYears (years app)) (data (years app))));
       VArr (map (fun year =>
                    VObj [("year", VStr year);
                          ("Total_Households_Worked",
                           total_households (data (years app)) year)])
                 (selectedYears (years app)))]
  | CompareRoute =>
      [value_of_series (getMock (d1 app)); value_of_series (getMock (d2 app))]
  | AboutRoute | ContactRoute => []
  end.

(** The application as it starts, and after the link to a page is
    followed. *)
Definition App_initial : App :=
  {| lang := en; current := HomeRoute; home := Dashboard_initial;
     years := StateComparison_mounted; d1 := ""; d2 := "" |}.

Definition navigate (r : route) (app : App) : App :=
  {| lang := lang app; current := r; home := home app;
     years := years app; d1 := d1 app; d2 := d2 app |}.

(* ================================================================== *)
(** ** Events of the pages *)
(* ================================================================== *)

(** [handleYearChange]: the selection after the checkbox of [value] has
    changed to [checked]. *)
Definition handleYearChange (value : string) (checked : bool) (prev : list string)
  : list string :=
  if checked then (prev ++ [value])%list
  else filter (fun y => negb (String.eqb y value)) prev.

(** The years that have a checkbox: [Object.keys(mockStateData)]. *)
Definition year_options : list string := map fst mockStateData.

(** A click on the checkbox of [year].  The box is drawn checked when
    [selectedYears.includes(year)], so the click reports the opposite. *)
Definition click_year (year : string) (s : StateComparisonState) : StateComparisonState :=
  {| selectedYears :=
       handleYearChange year
                        (negb (existsb (String.eqb year) (selectedYears s)))
                        (selectedYears s);
     data := data s |}.

(** The selections the page can reach: the mounted one, and what clicks
    on the year checkboxes make of it. *)
Inductive selection_reachable : StateComparisonState -> Prop :=
| reach_mounted : selection_reachable StateComparison_mounted
| reach_click (year : string) (s : StateComparisonState) :
    In year year_options ->
    selection_reachable s ->
    selection_reachable (click_year year s).

(** The Dashboard in use: what it holds, and the codes of the requests
    that have been sent and not yet answered, oldest first. *)
Record Session : Type := {
  view : Dashboard;
  pending : list string
}.

Definition Session_initial : Session :=
  {| view := Dashboard_initial; pending := [] |}.

(** The values of the options of the district selector: the blank option
    and one option per listed district. *)
Definition selectable_codes : list string :=
  "" :: map district_code SAMPLE_DISTRICTS.

(** [useEffect(..., [district])]: after an update the effect runs again
    when [district] is no longer what it was, and then sends a request
    unless the code is empty. *)
Definition rerun_effect (before : string) (now : Dashboard) (sent : list string)
  : list string :=
  if String.eqb (district now) before then sent
  else if JSString.truthy (district now) then (sent ++ [district now])%list
  else sent.

(** One thing happening to the Dashboard: the user picks an option of
    the selector, the user asks for detection and the device and the
    geocoding service answer, or one of the requests sent comes back. *)
Inductive step : Session -> Session -> Prop :=
| step_choose (code : string) (s : Session) :
    In code selectable_codes ->
    step s {| view := snd (setDistrict code (view s));
              pending := rerun_effect (district (view s))
                                      (snd (setDistrict code (view s))) (pending s) |}
| step_detect (geo : geolocation) (s : Session) :
    step s {| view := snd (handleDetect geo (view s));
              pending := rerun_effect (district (view s))
                                      (snd (handleDetect geo (view s))) (pending s) |}
| step_resolve (earlier later : list string) (code : string) (r : response) (s : Session) :
    pending s = (earlier ++ code :: later)%list ->
    step s {| view := snd (district_effect code r (view s));
              pending := (earlier ++ later)%list |}.

Inductive reachable : Session -> Prop :=
| reachable_initial : reachable Session_initial
| reachable_step (s s' : Session) : reachable s -> step s s' -> reachable s'.

(* ================================================================== *)
(** ** The specification's wording, stated over the same data *)
(* ================================================================== *)

(** [n] is ten times the magnitude [m * 2^e] rounded to the nearest
    integer, a half going up: [n <= 10 * m * 2^e + 1/2 < n + 1], with the
    denominators cleared. *)
Definition nearest_tenths (m : positive) (e n : Z) : Prop :=
  if 0 <=? e then n = 10 * Zpos m * 2 ^ e
  else 2 ^ (1 - e) * n <= 20 * Zpos m + 2 ^ (- e) < 2 ^ (1 - e) * (n + 1).

(** A number of the language: a binary64 value in its one standard
    form.  Every number the program meets is one. *)
Definition is_double (x : number) : bool := valid_binary prec emax x.

(** The quotients a decimal numeral is printed for: the finite ones whose
    magnitude is below 10^21. *)
Definition below_ten_pow_21 (q : number) : bool :=
  match q with
  | S754_finite _ m e => negb (geb (S754_finite false m e) ten_pow_21)
  | S754_zero _ => true
  | _ => false
  end.

(** [s] writes the number [q] rounded to one decimal: the sign, the
    integer part, a point and one digit, for the integer number of
    tenths nearest to [q]. *)
Definition rounded_to_one_decimal (q : number) (s : string) : Prop :=
  match q with
  | S754_finite sg m e =>
      exists n : Z,
        nearest_tenths m e n /\
        s = (if sg then "-" else "") ++ digits (n / 10) ++ "." ++ digits (n mod 10)
  | S754_zero _ => s = "0.0"
  | _ => False
  end.

(** [k / 10] rounded to the nearest integer, a half going up. *)
Definition round_tenth (k : Z) : Z := (k + 5) / 10.

(** The integer a number denotes when it denotes one (and its integer
    part otherwise). *)
Definition integer_of (x : number) : Z :=
  match x with
  | S754_finite s m e =>
      let v := if 0 <=? e then Zpos m * 2 ^ e else Zpos m / 2 ^ (- e) in
      if s then - v else v
  | _ => 0
  end.

(** The series the Compare page is said to show for a code ending in the
    digit [d]: the base series with persondays and expenditure multiplied
    by [(d mod 5 + 8) / 10] and rounded. *)
Definition scaled_series (d : Z) : list TimeseriesPoint :=
  map (fun b =>
         {| month := month b;
            households := households b;
            persondays := #(round_tenth (integer_of (persondays b) * (d mod 5 + 8)));
            expenditure := #(round_tenth (integer_of (expenditure b) * (d mod 5 + 8))) |})
      SAMPLE_TIMESERIES.

(** A request fails when the transport fails or the body is not JSON. *)
Definition fetch_fails (r : response) : Prop := r = NetworkError \/ r = Body None.

(** The user is notified with [message], and nothing else changes: the
    selected district and the data on display stay as they were. *)
Definition notified (before : Dashboard) (message : string) (after : Dashboard) : Prop :=
  district after = district before /\
  districtInfo after = districtInfo before /\
  timeseries after = timeseries before /\
  alerts after = (alerts before ++ [message])%list.

(** The first whitespace-delimited token of a name: its characters up
    to the first blank (space, tab or line break). *)
Fixpoint leading_word (s : string) : string :=
  match s with
  | String c s' => if is_space c then EmptyString else String c (leading_word s')
  | EmptyString => EmptyString
  end.

(** No listed district matches the locality the service returned: the
    locality is missing or empty, or it is a string in which the search
    finds no district. *)
Definition no_district_matches (locality : value) : Prop :=
  JSValue.truthy locality = false \/
  exists s : string, locality = VStr s /\ first_match s = None.

(** The service's answer cannot be searched at all: it is [null], or its
    locality is neither missing nor a string. *)
Definition answer_unusable (jd : value) : Prop :=
  locality_of jd = None \/
  exists locality : value,
    locality_of jd = Some locality /\ JSValue.truthy locality = true /\
    forall s : string, locality <> VStr s.

(** The two variants of a label written through the flag differ, so
    that switching the flag changes the text shown. *)
Definition variants_differ (l : label) : bool :=
  match l with
  | ByLang hi_text en_text => negb (String.eqb hi_text en_text)
  | Fixed _ => true
  end.

(** The decimal digit [d] as a character. *)
Definition digit_char (d : Z) : ascii := ascii_of_N (Z.to_N (48 + d)).

(** The small letters, each with its capital. *)
Definition letter_pairs : list (ascii * ascii) :=
  [("a", "A"); ("b", "B"); ("c", "C"); ("d", "D"); ("e", "E"); ("f", "F");
   ("g", "G"); ("h", "H"); ("i", "I"); ("j", "J"); ("k", "K"); ("l", "L");
   ("m", "M"); ("n", "N"); ("o", "O"); ("p", "P"); ("q", "Q"); ("r", "R");
   ("s", "S"); ("t", "T"); ("u", "U"); ("v", "V"); ("w", "W"); ("x", "X");
   ("y", "Y"); ("z", "Z")]%char.

(** Two characters that are the same when case is ignored: the same
    character, or a small letter and its capital, either way round. *)
Definition same_letter (a b : ascii) : Prop :=
  a = b \/ In (a, b) letter_pairs \/ In (b, a) letter_pairs.

(** Two texts that are the same, character by character, when case is
    ignored. *)
Inductive equal_ignoring_case : string -> string -> Prop :=
| equal_empty : equal_ignoring_case "" ""
| equal_letter (a b : ascii) (x y : string) :
    same_letter a b ->
    equal_ignoring_case x y ->
    equal_ignoring_case (String a x) (String b y).

(** [token] occurs in [s] when the case of letters is ignored: some
    stretch of [s] is the token up to case. *)
Definition occurs_ignoring_case (token s : string) : Prop :=
  exists before middle rest : string,
    s = before ++ middle ++ rest /\ equal_ignoring_case middle token.

(** An ASCII character, and a string of ASCII characters. *)
Definition ascii_char (c : ascii) : bool := (N_of_ascii c <? 128)%N.

Fixpoint is_ascii (s : string) : bool :=
  match s with
  | String c s' => ascii_char c && is_ascii s'
  | EmptyString => true
  end.

(** A string in which every character is outside ASCII. *)
Fixpoint no_ascii (s : string) : bool :=
  match s with
  | String c s' => negb (ascii_char c) && no_ascii s'
  | EmptyString => true
  end.

(** The text with every letter a to z replaced by its capital. *)
Fixpoint capitals (s : string) : string :=
  match s with
  | String c s' => String (JSString.upper_ascii c) (capitals s')
  | EmptyString => EmptyString
  end.

(** A code of the district list. *)
Definition listed (code : string) : Prop :=
  exists d : District, In d SAMPLE_DISTRICTS /\ district_code d = code.

(** The requests that end in the sample fallback: the transport failed,
    the body was not JSON, or it parsed to a value with no properties to
    read. *)
Definition falls_back (r : response) : bool :=
  match r with
  | Body (Some VNull) | Body (Some VUndefined) => true
  | Body (Some _) => false
  | NetworkError | Body None => true
  end.

(** The snapshot and the series on display once the request for [code]
    has ended with [r]. *)
Definition shown_kpis (code : string) (r : response) : value :=
  match r with
  | Body (Some data) =>
      match JSValue.get data "kpis" with
      | Some kpis => kpis
      | None => fallback_kpis code
      end
  | _ => fallback_kpis code
  end.

Definition shown_series (r : response) : value :=
  match r with
  | Body (Some data) =>
      match JSValue.get data "timeseries" with
      | Some series => JSValue.or series (VArr [])
      | None => value_of_series SAMPLE_TIMESERIES
      end
  | _ => value_of_series SAMPLE_TIMESERIES
  end.

(** What the Dashboard keeps true all along. *)
Definition session_invariant (s : Session) : Prop :=
  (district (view s) = "" \/ listed (district (view s))) /\
  Forall listed (pending s) /\
  JSValue.truthy (timeseries (view s)) = true.

(** [jd.key] on an object with the properties [fields]. *)
Definition field_of (fields : list (string * value)) (key : string) : value :=
  match JSValue.lookup fields key with
  | Some v => v
  | None => VUndefined
  end.

(** The four messages detection can show. *)
Definition detect_messages : list string :=
  ["Geolocation not available on this device";
   "Location permission denied or unavailable";
   "Auto-detect failed — please select manually.";
   "Could not auto-detect district. Please select from list."].

(** The row of a month when the selected years are distinct and none is
    called month: the month, then one field per year in selection order. *)
Definition row_of (selected : list string) (data : year_data) (mth : string)
  : list (string * value) :=
  ("month", VStr mth)
  :: map (fun year => (year, VNum (expenditure_or_zero data year mth))) selected.

(* ================================================================== *)
(** ** Facts about numbers *)
(* ================================================================== *)

Section NumberFacts.

Lemma SFcompare_antisym (x y : number) :
  SFcompare y x = option_map CompOpp (SFcompare x y).
Proof.
  destruct x as [sx|sx| |sx mx ex], y as [sy|sy| |sy my ey]; simpl;
    try reflexivity;
    try (destruct sx; reflexivity);
    try (destruct sy; reflexivity);
    try (destruct sx, sy; reflexivity).
  destruct sx, sy; simpl; try reflexivity.
  - pose proof (Pos.compare_cont_antisym mx my Eq) as Hm. simpl in Hm.
    rewrite (Z.compare_antisym ex ey).
    destruct (ex ?= ey); simpl; try reflexivity.
    rewrite <- Hm. destruct (Pos.compare_cont Eq mx my); reflexivity.
  - pose proof (Pos.compare_cont_antisym mx my Eq) as Hm. simpl in Hm.
    rewrite (Z.compare_antisym ex ey).
    destruct (ex ?= ey); simpl; try reflexivity.
    rewrite <- Hm. reflexivity.
Qed.

(** [x < a] excludes [x >= a]. *)
Lemma ltb_not_geb (x a : number) : ltb x a = true -> geb x a = false.
Proof.
  unfold ltb, geb, SFltb, SFleb. rewrite (SFcompare_antisym x a).
  destruct (SFcompare x a) as [[ | | ]| ]; simpl; congruence.
Qed.

Lemma lakh_bits : #100000 = S754_finite false 6871947673600000 (-36).
Proof. vm_compute. reflexivity. Qed.

Lemma crore_bits : #10000000 = S754_finite false 5368709120000000 (-29).
Proof. vm_compute. reflexivity. Qed.

(** Below one lakh is below one crore. *)
Lemma ltb_lakh_crore (x : number) :
  ltb x #100000 = true -> ltb x #10000000 = true.
Proof.
  rewrite lakh_bits, crore_bits. unfold ltb, SFltb.
  destruct x as [s|s| |s m e]; cbn [SFcompare];
    try (destruct s; congruence); try congruence.
  destruct s; try congruence.
  destruct (Z.compare_spec e (-36)), (Z.compare_spec e (-29));
    try lia; try congruence.
Qed.

Lemma round_half_up_nearest (m : positive) (e : Z) :
  nearest_tenths m e (round_half_up (10 * Zpos m) e).
Proof.
  unfold nearest_tenths, round_half_up.
  destruct (0 <=? e) eqn:He; [reflexivity|].
  apply Z.leb_gt in He.
  assert (Hd : 0 < 2 ^ (1 - e)) by (apply Z.pow_pos_nonneg; lia).
  replace (2 * (10 * Zpos m)) with (20 * Zpos m) by ring.
  split.
  - apply Z.mul_div_le; exact Hd.
  - replace (2 ^ (1 - e) * ((20 * Zpos m + 2 ^ (- e)) / 2 ^ (1 - e) + 1))
      with (2 ^ (1 - e) * Z.succ ((20 * Zpos m + 2 ^ (- e)) / 2 ^ (1 - e)))
      by (unfold Z.succ; ring).
    apply Z.mul_succ_div_gt; exact Hd.
Qed.

(** The rounding is determined: one integer only is nearest. *)
Lemma nearest_tenths_unique (m : positive) (e n n' : Z) :
  nearest_tenths m e n -> nearest_tenths m e n' -> n = n'.
Proof.
  unfold nearest_tenths.
  destruct (0 <=? e) eqn:He; [congruence|].
  apply Z.leb_gt in He.
  assert (Hd : 0 < 2 ^ (1 - e)) by (apply Z.pow_pos_nonneg; lia).
  intros [H1 H2] [H3 H4]. nia.
Qed.

Lemma round_tenth_nearest (k : Z) :
  10 * round_tenth k <= k + 5 < 10 * (round_tenth k + 1).
Proof.
  unfold round_tenth.
  pose proof (Z.div_mod (k + 5) 10 ltac:(lia)).
  pose proof (Z.mod_pos_bound (k + 5) 10 ltac:(lia)).
  lia.
Qed.

(** *** The exponent of a rounded quotient *)

Lemma digits2_log2 (p : positive) : Zpos (digits2_pos p) = Z.log2 (Zpos p) + 1.
Proof.
  assert (Hsize : forall q, digits2_pos q = Pos.size q)
    by (induction q as [q IH|q IH|]; cbn [digits2_pos Pos.size]; congruence).
  destruct p as [p|p|]; cbn [digits2_pos Z.log2]; rewrite ?Hsize; lia.
Qed.

Lemma Zdigits2_bound (m D : Z) : 0 <= D -> 0 <= m < 2 ^ D -> Zdigits2 m <= D.
Proof.
  intros HD [Hm Hlt]. destruct m as [|p|p]; cbn [Zdigits2]; try lia.
  rewrite digits2_log2.
  assert (Z.log2 (Zpos p) < D) by (apply Z.log2_lt_pow2; lia).
  lia.
Qed.

Lemma shr_1_bound (mrs : shr_record) :
  0 <= shr_m mrs -> 0 <= shr_m (shr_1 mrs) <= shr_m mrs.
Proof.
  destruct mrs as [m r s]. cbn [shr_m]. intros Hm.
  destruct m as [|[p|p|]|p]; cbn [shr_1 shr_m]; lia.
Qed.

Lemma iter_shr_bound (p : positive) (mrs : shr_record) :
  0 <= shr_m mrs -> 0 <= shr_m (iter_pos shr_1 p mrs) <= shr_m mrs.
Proof.
  revert mrs. induction p as [p IH|p IH|]; intros mrs Hm; cbn [iter_pos].
  - pose proof (shr_1_bound mrs Hm) as H1.
    pose proof (IH (shr_1 mrs) (proj1 H1)) as H2.
    pose proof (IH _ (proj1 H2)) as H3. lia.
  - pose proof (IH mrs Hm) as H2.
    pose proof (IH _ (proj1 H2)) as H3. lia.
  - apply shr_1_bound. exact Hm.
Qed.

Lemma shr_fexp_bound (m e : Z) (l : location) :
  0 <= m ->
  0 <= shr_m (fst (shr_fexp prec emax m e l)) <= m /\
  snd (shr_fexp prec emax m e l) <= Z.max e (fexp prec emax (Zdigits2 m + e)).
Proof.
  intros Hm. unfold shr_fexp, shr.
  assert (Hrec : shr_m (shr_record_of_loc m l) = m)
    by (destruct l as [|[ | | ]]; reflexivity).
  destruct (fexp prec emax (Zdigits2 m + e) - e) as [|p|p] eqn:Hn; cbn [fst snd].
  - rewrite Hrec. lia.
  - pose proof (iter_shr_bound p (shr_record_of_loc m l)) as Hb.
    rewrite Hrec in Hb. specialize (Hb Hm). lia.
  - rewrite Hrec. lia.
Qed.

Lemma round_nearest_even_bound (m : Z) (l : location) :
  m <= round_nearest_even m l <= m + 1.
Proof.
  destruct l as [|[ | | ]]; cbn [round_nearest_even]; try lia.
  destruct (Z.even m); lia.
Qed.

Lemma fexp_small (k : Z) : fexp prec emax k = Z.max (k - 53) (-1074).
Proof. reflexivity. Qed.

Lemma binary_round_aux_exponent (sg : bool) (mz ez : Z) (lz : location) :
  0 <= mz < 2 ^ 55 -> ez <= -46 ->
  binary_round_aux prec emax sg mz ez lz = S754_zero sg \/
  exists (m : positive) (e : Z),
    binary_round_aux prec emax sg mz ez lz = S754_finite sg m e /\ e <= 16.
Proof.
  intros Hmz Hez. unfold binary_round_aux.
  destruct (shr_fexp_bound mz ez lz (proj1 Hmz)) as [Hm1 He1].
  destruct (shr_fexp prec emax mz ez lz) as [mrs1 e1]. cbn [fst snd] in Hm1, He1.
  pose proof (Zdigits2_bound mz 55 ltac:(lia) Hmz) as Hd1.
  rewrite fexp_small in He1.
  pose proof (round_nearest_even_bound (shr_m mrs1) (loc_of_shr_record mrs1)) as Hr.
  set (m1 := round_nearest_even (shr_m mrs1) (loc_of_shr_record mrs1)) in *.
  assert (Hm1' : 0 <= m1 < 2 ^ 56).
  { change (2 ^ 56) with 72057594037927936. change (2 ^ 55) with 36028797018963968 in Hmz. lia. }
  destruct (shr_fexp_bound m1 e1 loc_Exact (proj1 Hm1')) as [Hm2 He2].
  destruct (shr_fexp prec emax m1 e1 loc_Exact) as [mrs2 e2]. cbn [fst snd] in Hm2, He2.
  pose proof (Zdigits2_bound m1 56 ltac:(lia) Hm1') as Hd2.
  rewrite fexp_small in He2.
  destruct (shr_m mrs2) as [|m|m] eqn:Hfinal.
  - left. reflexivity.
  - right. exists m, e2.
    assert (He : e2 <= 16) by lia.
    assert (Hle : (e2 <=? emax - prec) = true) by (apply Z.leb_le; unfold emax, prec; lia).
    rewrite Hle. auto.
  - lia.
Qed.

Lemma lakh_digits : digits2_pos 6871947673600000 = 53%positive.
Proof. vm_compute. reflexivity. Qed.

Lemma div_core_lakh (mx : positive) (ex : Z) :
  Zpos (digits2_pos mx) = 53 -> -36 <= ex <= -29 ->
  exists (q : Z) (l : location),
    SFdiv_core_binary prec emax (Zpos mx) ex 6871947673600000 (-36) = (q, ex - 17, l) /\
    0 <= q < 2 ^ 55.
Proof.
  intros Hd Hex. unfold SFdiv_core_binary. cbn [Zdigits2].
  rewrite Hd, lakh_digits, fexp_small.
  replace (Z.min (Z.max (53 + ex - (53 + -36) - 53) (-1074)) (ex - -36)) with (ex - 17) by lia.
  replace (ex - -36 - (ex - 17)) with 53 by lia.
  cbv beta iota zeta.
  pose proof (Z.div_eucl_eq (Z.shiftl (Zpos mx) 53) 6871947673600000 ltac:(lia)) as Heq.
  pose proof (Z.mod_pos_bound (Z.shiftl (Zpos mx) 53) 6871947673600000 ltac:(lia)) as Hr.
  unfold Z.modulo in Hr.
  destruct (Z.div_eucl (Z.shiftl (Zpos mx) 53) 6871947673600000) as [q r].
  exists q. eexists. split; [reflexivity|].
  rewrite Z.shiftl_mul_pow2 in Heq by lia.
  assert (Hmx : Zpos mx < 2 ^ 53).
  { rewrite digits2_log2 in Hd. apply Z.log2_lt_pow2; lia. }
  change (2 ^ 53) with 9007199254740992 in *.
  change (2 ^ 55) with 36028797018963968.
  nia.
Qed.

Lemma ten_pow_21_bits : ten_pow_21 = S754_finite false 7629394531250000 17.
Proof. vm_compute. reflexivity. Qed.

Lemma small_exponent_below (sg : bool) (m : positive) (e : Z) :
  e <= 16 -> below_ten_pow_21 (S754_finite sg m e) = true.
Proof.
  intros He. cbn [below_ten_pow_21]. unfold geb, SFleb. rewrite ten_pow_21_bits.
  cbn [SFcompare]. destruct (Z.compare_spec 17 e); try lia; reflexivity.
Qed.

Lemma lakh_range (x : number) :
  is_double x = true -> geb x #100000 = true -> ltb x #10000000 = true ->
  exists (mx : positive) (ex : Z),
    x = S754_finite false mx ex /\ Zpos (digits2_pos mx) = 53 /\ -36 <= ex <= -29.
Proof.
  rewrite lakh_bits, crore_bits. unfold is_double, geb, ltb, SFleb, SFltb.
  destruct x as [s|s| |s mx ex]; cbn [SFcompare valid_binary];
    try (destruct s; discriminate); try discriminate.
  destruct s; try discriminate.
  intros Hvalid Hge Hlt. exists mx, ex. split; [reflexivity|].
  assert (Hex : -36 <= ex <= -29).
  { destruct (Z.compare_spec (-36) ex), (Z.compare_spec ex (-29)); try discriminate; lia. }
  split; [|exact Hex].
  unfold bounded, canonical_mantissa in Hvalid.
  apply andb_prop in Hvalid. destruct Hvalid as [Hcanon _].
  apply Z.eqb_eq in Hcanon. rewrite fexp_small in Hcanon. lia.
Qed.

Lemma div_lakh_below (x : number) :
  is_double x = true -> geb x #100000 = true -> ltb x #10000000 = true ->
  below_ten_pow_21 (div x #100000) = true.
Proof.
  intros Hvalid Hge Hlt.
  destruct (lakh_range x Hvalid Hge Hlt) as [mx [ex [-> [Hd Hex]]]].
  unfold div. rewrite lakh_bits. cbn [SFdiv].
  destruct (div_core_lakh mx ex Hd Hex) as [q [l [Hcore Hq]]].
  rewrite Hcore.
  destruct (binary_round_aux_exponent (xorb false false) q (ex - 17) l Hq ltac:(lia))
    as [-> | [m [e [-> He]]]].
  - reflexivity.
  - apply small_exponent_below. exact He.
Qed.

Variable shortest_decimal : number -> string.

Lemma toFixed1_rounds (q : number) :
  below_ten_pow_21 q = true ->
  rounded_to_one_decimal q (toFixed1 shortest_decimal q).
Proof.
  destruct q as [s|s| |s m e];
    cbn [toFixed1 rounded_to_one_decimal below_ten_pow_21].
  - reflexivity.
  - intros Hinf. discriminate Hinf.
  - intros Hnan. discriminate Hnan.
  - intros Hlt. apply negb_true_iff in Hlt. rewrite Hlt.
    exists (round_half_up (10 * Zpos m) e). split.
    + apply round_half_up_nearest.
    + reflexivity.
Qed.

Lemma toFixed1_large (q : number) :
  below_ten_pow_21 q = false ->
  toFixed1 shortest_decimal q = Number_toString shortest_decimal q.
Proof.
  destruct q as [s|s| |s m e]; cbn [toFixed1 below_ten_pow_21].
  - intros Hzero. discriminate Hzero.
  - reflexivity.
  - reflexivity.
  - intros Hge. apply negb_false_iff in Hge. rewrite Hge. reflexivity.
Qed.

End NumberFacts.

(* ================================================================== *)
(** ** The number formatter *)
(* ================================================================== *)

(** C2, as the code has it.  [formatNumber] on an argument that is absent
    or a number: an absent argument ([null] or [undefined]) gives the
    placeholder; a number of at least 10,000,000 gives the number divided
    by 10,000,000, rounded to one decimal, followed by the crore suffix,
    as long as that quotient is finite and below 10^21, and the quotient
    as [toString] prints it, followed by the suffix, beyond; a number of
    at least 100,000 and below 10,000,000 gives the number divided by
    100,000, rounded to one decimal, followed by the lakh suffix; a
    number below 100,000 gives the locale's form of the number; and no
    number makes the function throw. *)
Theorem formatNumber_cases
        (shortest_decimal toLocaleString : number -> string)
        (StringToNumber : string -> number) (list_separator : string) :
  (formatNumber shortest_decimal toLocaleString StringToNumber list_separator VNull
   = Some "—" /\
   formatNumber shortest_decimal toLocaleString StringToNumber list_separator VUndefined
   = Some "—") /\
  (forall x : number,
      geb x #10000000 = true ->
      below_ten_pow_21 (div x #10000000) = true ->
      exists body : string,
        rounded_to_one_decimal (div x #10000000) body /\
        formatNumber shortest_decimal toLocaleString StringToNumber list_separator (VNum x)
        = Some (body ++ " Cr")) /\
  (forall x : number,
      geb x #10000000 = true ->
      below_ten_pow_21 (div x #10000000) = false ->
      formatNumber shortest_decimal toLocaleString StringToNumber list_separator (VNum x)
      = Some (Number_toString shortest_decimal (div x #10000000) ++ " Cr")) /\
  (forall x : number,
      is_double x = true ->
      geb x #100000 = true -> ltb x #10000000 = true ->
      exists body : string,
        rounded_to_one_decimal (div x #100000) body /\
        formatNumber shortest_decimal toLocaleString StringToNumber list_separator (VNum x)
        = Some (body ++ " L")) /\
  (forall x : number,
      ltb x #100000 = true ->
      formatNumber shortest_decimal toLocaleString StringToNumber list_separator (VNum x)
      = Some (toLocaleString x)) /\
  (forall x : number,
      exists s : string,
        formatNumber shortest_decimal toLocaleString StringToNumber list_separator (VNum x)
        = Some s).
Proof.
  split; [split; reflexivity|].
  split; [|split; [|split; [|split]]].
  - intros x Hcrore Hbelow.
    exists (toFixed1 shortest_decimal (div x #10000000)).
    split; [apply toFixed1_rounds; exact Hbelow|].
    cbn [formatNumber ToNumber]. rewrite Hcrore. reflexivity.
  - intros x Hcrore Hbeyond.
    cbn [formatNumber ToNumber]. rewrite Hcrore, (toFixed1_large _ _ Hbeyond). reflexivity.
  - intros x Hdouble Hlakh Hbelow.
    exists (toFixed1 shortest_decimal (div x #100000)).
    split; [apply toFixed1_rounds, div_lakh_below; assumption|].
    cbn [formatNumber ToNumber]. rewrite (ltb_not_geb _ _ Hbelow), Hlakh. reflexivity.
  - intros x Hsmall. cbn [formatNumber ToNumber invoke_toLocaleString].
    rewrite (ltb_not_geb _ _ (ltb_lakh_crore _ Hsmall)), (ltb_not_geb _ _ Hsmall).
    reflexivity.
  - intros x. cbn [formatNumber ToNumber invoke_toLocaleString].
    destruct (geb x #10000000); [eauto|]. destruct (geb x #100000); eauto.
Qed.

Lemma formatNumber_cases_witness :
  exists body : string,
    rounded_to_one_decimal (div #25000000 #10000000) body /\
    formatNumber (fun _ => "") (fun _ => "") (fun _ => NaN) "," (VNum #25000000)
    = Some (body ++ " Cr").
Proof.
  destruct (formatNumber_cases (fun _ => "") (fun _ => "") (fun _ => NaN) ",")
    as [_ [Hcrore _]].
  apply Hcrore; vm_compute; reflexivity.
Defined.

(** C2 as written fails on two kinds of input.  A payload field that is
    an object with a property of its own called [toLocaleString] makes
    the function throw, since that property hides the method and cannot
    be called.  And infinity, which is at least 10,000,000, prints by
    name: its quotient is infinite, and no decimal numeral writes it. *)
Lemma formatNumber_throws_and_prints_infinity :
  formatNumber (fun _ => "") (fun _ => "") (fun _ => NaN) ","
               (VObj [("toLocaleString", VNum #1)])
  = None /\
  formatNumber (fun _ => "") (fun _ => "") (fun _ => NaN) "," (VNum pos_infinity)
  = Some "Infinity Cr" /\
  div pos_infinity #10000000 = pos_infinity /\
  (forall s : string, ~ rounded_to_one_decimal pos_infinity s).
Proof.
  split; [reflexivity|]. split; [vm_compute; reflexivity|].
  split; [vm_compute; reflexivity|].
  intros s Hs. exact Hs.
Qed.

(** The rounding is that of the binary quotient: 11,500,000 / 10,000,000
    is the double just below 1.15, and prints as 1.1. *)
Example formatNumber_samples
        (shortest_decimal toLocaleString : number -> string)
        (StringToNumber : string -> number) (list_separator : string) :
  formatNumber shortest_decimal toLocaleString StringToNumber list_separator
               (VNum #1696959) = Some "17.0 L" /\
  formatNumber shortest_decimal toLocaleString StringToNumber list_separator
               (VNum #3443327) = Some "34.4 L" /\
  formatNumber shortest_decimal toLocaleString StringToNumber list_separator
               (VNum #9999999) = Some "100.0 L" /\
  formatNumber shortest_decimal toLocaleString StringToNumber list_separator
               (VNum #11500000) = Some "1.1 Cr" /\
  formatNumber shortest_decimal toLocaleString StringToNumber list_separator
               (VNum #12500000) = Some "1.3 Cr" /\
  formatNumber shortest_decimal toLocaleString StringToNumber list_separator
               (VNum #90928) = Some (toLocaleString #90928).
Proof.
  repeat split; vm_compute; reflexivity.
Qed.

(** Beyond the numerals: 10^28 divided by 10,000,000 is 10^21 and is
    printed as [toString] prints it; NaN, which no comparison accepts,
    goes to the locale; a numeric string is compared as the number it
    denotes. *)
Example formatNumber_beyond
        (shortest_decimal toLocaleString : number -> string)
        (StringToNumber : string -> number) (list_separator : string) :
  formatNumber shortest_decimal toLocaleString StringToNumber list_separator
               (VNum #(10 ^ 28))
  = Some (shortest_decimal ten_pow_21 ++ " Cr") /\
  formatNumber shortest_decimal toLocaleString StringToNumber list_separator
               (VNum NaN) = Some (toLocaleString NaN) /\
  (StringToNumber "25000000" = #25000000 ->
   formatNumber shortest_decimal toLocaleString StringToNumber list_separator
                (VStr "25000000") = Some "2.5 Cr").
Proof.
  split; [vm_compute; reflexivity|]. split; [reflexivity|].
  intros Hparse. cbn [formatNumber ToNumber]. rewrite Hparse. vm_compute. reflexivity.
Qed.

(* ================================================================== *)
(** ** The Compare page *)
(* ================================================================== *)

Lemma slice_last_nonempty (code : string) (c : ascii) :
  JSString.slice_last code = String c EmptyString -> JSString.truthy code = true.
Proof.
  destruct code; [discriminate | reflexivity].
Qed.

Lemma digit_cases (d : Z) :
  0 <= d <= 9 ->
  d = 0 \/ d = 1 \/ d = 2 \/ d = 3 \/ d = 4 \/ d = 5 \/ d = 6 \/ d = 7 \/ d = 8 \/ d = 9.
Proof. lia. Qed.

(** Every value of the base series is an integer, the one [integer_of]
    reads. *)
Lemma SAMPLE_TIMESERIES_integers :
  Forall (fun b =>
            #(integer_of (households b)) = households b /\
            #(integer_of (persondays b)) = persondays b /\
            #(integer_of (expenditure b)) = expenditure b)
         SAMPLE_TIMESERIES.
Proof.
  repeat constructor; vm_compute; reflexivity.
Qed.

(** C4.  For a district code that is not empty and ends in the digit [d],
    the factor is [(d mod 5) + 8], and the mock series is the base series
    with every month's persondays and expenditure multiplied by
    [factor / 10] and rounded to the nearest integer; month labels and
    households are those of the base series. *)
Theorem getMock_scaled (code : string) (d : Z) :
  0 <= d <= 9 ->
  JSString.slice_last code = String (digit_char d) EmptyString ->
  factor code = #(d mod 5 + 8) /\
  getMock code = scaled_series d /\
  map month (getMock code) = map month SAMPLE_TIMESERIES /\
  map households (getMock code) = map households SAMPLE_TIMESERIES.
Proof.
  intros Hd Hlast.
  assert (Hfactor : factor code = #(d mod 5 + 8)).
  { unfold factor. rewrite (slice_last_nonempty _ _ Hlast), Hlast.
    destruct (digit_cases d Hd) as [-> | [-> | [-> | [-> | [-> | [-> | [-> | [-> | [-> | ->]]]]]]]]];
      vm_compute; reflexivity. }
  split; [exact Hfactor|].
  unfold getMock. rewrite Hfactor. clear Hfactor Hlast.
  destruct (digit_cases d Hd) as [-> | [-> | [-> | [-> | [-> | [-> | [-> | [-> | [-> | ->]]]]]]]]];
    vm_compute; repeat split; reflexivity.
Qed.

Lemma getMock_scaled_witness :
  factor "0518" = #11 /\
  nth_error (map persondays (getMock "0518")) 8 = Some #3787660.
Proof.
  destruct (getMock_scaled "0518" 8 ltac:(lia) eq_refl) as [Hf [Hs _]].
  split.
  - rewrite Hf. vm_compute. reflexivity.
  - rewrite Hs. vm_compute. reflexivity.
Defined.

Lemma times_ten_tenths :
  Forall (fun b =>
            Math_round (div (mul (persondays b) #10) #10) = persondays b /\
            Math_round (div (mul (expenditure b) #10) #10) = expenditure b)
         SAMPLE_TIMESERIES.
Proof.
  repeat constructor; vm_compute; reflexivity.
Qed.

Lemma map_fixes {A : Type} (f : A -> A) (l : list A) :
  Forall (fun x => f x = x) l -> map f l = l.
Proof.
  induction 1 as [|x l Hx _ IH]; simpl; [reflexivity|].
  rewrite Hx, IH. reflexivity.
Qed.

(** C9.  With the empty code (no district selected) the factor is 10 and
    the mock series is the base sample series itself: every persondays
    and expenditure value times 10, divided by 10 and rounded, is the
    value it started from. *)
Theorem getMock_empty :
  factor "" = #10 /\ getMock "" = SAMPLE_TIMESERIES.
Proof.
  split; [reflexivity|].
  unfold getMock. rewrite map_id.
  change (factor "") with #10.
  apply map_fixes.
  eapply Forall_impl; [|exact times_ten_tenths].
  intros [m h p x] [Hp Hx]. cbn [month households persondays expenditure] in *.
  rewrite Hp, Hx. reflexivity.
Qed.

(* ================================================================== *)
(** ** The State Comparison table *)
(* ================================================================== *)

Section Objects.

Import JSValue.

Lemma lookup_assign_same (fields : list (string * value)) (key : string) (v : value) :
  lookup (assign fields key v) key = Some v.
Proof.
  induction fields as [|[k w] rest IH]; simpl.
  - rewrite String.eqb_refl. reflexivity.
  - destruct (String.eqb k key) eqn:Hk; simpl; rewrite Hk; [reflexivity | exact IH].
Qed.

Lemma lookup_assign_other (fields : list (string * value)) (key key' : string) (v : value) :
  key <> key' -> lookup (assign fields key v) key' = lookup fields key'.
Proof.
  intros Hne.
  induction fields as [|[k w] rest IH]; simpl.
  - destruct (String.eqb_spec key key'); [contradiction | reflexivity].
  - destruct (String.eqb_spec k key) as [->|Hk]; simpl.
    + destruct (String.eqb_spec key key'); [contradiction | reflexivity].
    + rewrite IH. reflexivity.
Qed.

(** Writing one field per year into a row leaves in each year's field
    the value written last for it, and touches no other field. *)
Lemma lookup_fold_assign (g : string -> value) (selected : list string)
      (init : list (string * value)) (key : string) :
  lookup (fold_left (fun point year => assign point year (g year)) selected init) key
  = if existsb (String.eqb key) selected then Some (g key) else lookup init key.
Proof.
  revert init.
  induction selected as [|y rest IH]; intros init; simpl; [reflexivity|].
  rewrite IH.
  destruct (existsb (String.eqb key) rest); [rewrite orb_true_r; reflexivity|].
  rewrite orb_false_r.
  destruct (String.eqb_spec key y) as [->|Hne].
  - apply lookup_assign_same.
  - apply lookup_assign_other. congruence.
Qed.

End Objects.

Lemma combinedData_length (selected : list string) (data : year_data) :
  length (combinedData selected data) = length months.
Proof.
  unfold combinedData. apply length_map.
Qed.

(** Whatever years are selected and whatever data is held, the row of a
    month carries, for each selected year, that year's expenditure for
    the month, with 0 standing for a missing or zero one. *)
Lemma combinedData_field (selected : list string) (data : year_data)
      (i : nat) (mth year : string) (row : list (string * value)) :
  nth_error months i = Some mth ->
  nth_error (combinedData selected data) i = Some row ->
  In year selected ->
  JSValue.lookup row year = Some (VNum (expenditure_or_zero data year mth)).
Proof.
  intros Hm Hrow Hin.
  unfold combinedData in Hrow. rewrite nth_error_map, Hm in Hrow.
  injection Hrow as <-.
  rewrite (lookup_fold_assign (fun y => VNum (expenditure_or_zero data y mth))).
  assert (Hex : existsb (String.eqb year) selected = true).
  { apply existsb_exists. exists year. split; [exact Hin | apply String.eqb_refl]. }
  rewrite Hex. reflexivity.
Qed.

(** The series held for each year, value by value. *)
Lemma mockStateData_entries (year : string) (series : list TimeseriesPoint) :
  In (year, series) mockStateData ->
  (year = "2023-24" /\ series = SAMPLE_TIMESERIES) \/
  (year = "2024-25" /\
   map (fun p => (month p, expenditure p)) series
   = [("Apr", #13000); ("May", #14000); ("Jun", #13500); ("Jul", #15000);
      ("Aug", #16000); ("Sep", #12800); ("Oct", #13700); ("Nov", #14200);
      ("Dec", #16209)]).
Proof.
  unfold mockStateData. intros [Heq | [Heq | []]]; injection Heq as <- <-.
  - left. split; reflexivity.
  - right. split; [reflexivity|]. vm_compute. reflexivity.
Qed.

(** C3.  With the years 2023-24 and 2024-25 selected, the months Apr to
    Mar and the built-in mock data, the comparison table has exactly 12
    rows, one per month in that order, and each row carries one field
    per selected year holding that year's expenditure for the month, or
    0 when the year's series has no such month. *)
Theorem combinedData_mock :
  let rows := combinedData (selectedYears StateComparison_mounted)
                           (data StateComparison_mounted) in
  length rows = 12%nat /\
  rows =
  [[("month", VStr "Apr"); ("2023-24", VNum #12000); ("2024-25", VNum #13000)];
   [("month", VStr "May"); ("2023-24", VNum #13000); ("2024-25", VNum #14000)];
   [("month", VStr "Jun"); ("2023-24", VNum #12500); ("2024-25", VNum #13500)];
   [("month", VStr "Jul"); ("2023-24", VNum #14000); ("2024-25", VNum #15000)];
   [("month", VStr "Aug"); ("2023-24", VNum #15000); ("2024-25", VNum #16000)];
   [("month", VStr "Sep"); ("2023-24", VNum #11800); ("2024-25", VNum #12800)];
   [("month", VStr "Oct"); ("2023-24", VNum #12700); ("2024-25", VNum #13700)];
   [("month", VStr "Nov"); ("2023-24", VNum #13200); ("2024-25", VNum #14200)];
   [("month", VStr "Dec"); ("2023-24", VNum #15209); ("2024-25", VNum #16209)];
   [("month", VStr "Jan"); ("2023-24", VNum #0); ("2024-25", VNum #0)];
   [("month", VStr "Feb"); ("2023-24", VNum #0); ("2024-25", VNum #0)];
   [("month", VStr "Mar"); ("2023-24", VNum #0); ("2024-25", VNum #0)]] /\
  map (fun row => JSValue.lookup row "month") rows
  = map (fun mth => Some (VStr mth))
        ["Apr"; "May"; "Jun"; "Jul"; "Aug"; "Sep"; "Oct"; "Nov"; "Dec"; "Jan"; "Feb"; "Mar"] /\
  (forall (i : nat) (mth : string) (row : list (string * value))
          (year : string) (series : list TimeseriesPoint),
      nth_error months i = Some mth ->
      nth_error rows i = Some row ->
      In (year, series) mockStateData ->
      (forall p : TimeseriesPoint,
          In p series -> month p = mth ->
          JSValue.lookup row year = Some (VNum (expenditure p))) /\
      ((forall p : TimeseriesPoint, In p series -> month p <> mth) ->
       JSValue.lookup row year = Some (VNum #0))).
Proof.
  cbv zeta.
  assert (Hrows :
    combinedData (selectedYears StateComparison_mounted) (data StateComparison_mounted) =
    [[("month", VStr "Apr"); ("2023-24", VNum #12000); ("2024-25", VNum #13000)];
     [("month", VStr "May"); ("2023-24", VNum #13000); ("2024-25", VNum #14000)];
     [("month", VStr "Jun"); ("2023-24", VNum #12500); ("2024-25", VNum #13500)];
     [("month", VStr "Jul"); ("2023-24", VNum #14000); ("2024-25", VNum #15000)];
     [("month", VStr "Aug"); ("2023-24", VNum #15000); ("2024-25", VNum #16000)];
     [("month", VStr "Sep"); ("2023-24", VNum #11800); ("2024-25", VNum #12800)];
     [("month", VStr "Oct"); ("2023-24", VNum #12700); ("2024-25", VNum #13700)];
     [("month", VStr "Nov"); ("2023-24", VNum #13200); ("2024-25", VNum #14200)];
     [("month", VStr "Dec"); ("2023-24", VNum #15209); ("2024-25", VNum #16209)];
     [("month", VStr "Jan"); ("2023-24", VNum #0); ("2024-25", VNum #0)];
     [("month", VStr "Feb"); ("2023-24", VNum #0); ("2024-25", VNum #0)];
     [("month", VStr "Mar"); ("2023-24", VNum #0); ("2024-25", VNum #0)]])
    by (vm_compute; reflexivity).
  split; [apply combinedData_length|].
  split; [exact Hrows|].
  rewrite Hrows. split; [reflexivity|].
  intros i mth row year series Hm Hrow Hin.
  assert (Hfields :
    forall p : TimeseriesPoint,
      In (month p, expenditure p) (map (fun q => (month q, expenditure q)) series) ->
      month p = mth -> JSValue.lookup row year = Some (VNum (expenditure p))).
  { intros p Hp Hmonth.
    destruct (mockStateData_entries year series Hin) as [[-> ->] | [-> Hvalues]].
    - unfold months in Hm.
      do 12 (destruct i as [|i];
             [injection Hm as <-; injection Hrow as <-;
              cbn [map SAMPLE_TIMESERIES month expenditure In] in Hp;
              repeat (destruct Hp as [Hp | Hp];
                      [injection Hp as Hpm Hpe; rewrite <- Hpe;
                       first [reflexivity | rewrite <- Hpm in Hmonth; discriminate Hmonth]|]);
              contradiction|]).
      destruct i; discriminate Hm.
    - rewrite Hvalues in Hp. unfold months in Hm.
      do 12 (destruct i as [|i];
             [injection Hm as <-; injection Hrow as <-;
              cbn [In] in Hp;
              repeat (destruct Hp as [Hp | Hp];
                      [injection Hp as Hpm Hpe; rewrite <- Hpe;
                       first [reflexivity | rewrite <- Hpm in Hmonth; discriminate Hmonth]|]);
              contradiction|]).
      destruct i; discriminate Hm. }
  split.
  - intros p Hp Hmonth. apply Hfields; [|exact Hmonth].
    apply (in_map (fun q => (month q, expenditure q)) series p Hp).
  - intros Habsent.
    assert (Hout : forall name x,
               In (name, x) (map (fun q => (month q, expenditure q)) series) -> name <> mth).
    { intros name x Hnx. apply in_map_iff in Hnx. destruct Hnx as [p [Hp Hps]].
      injection Hp as <- _. apply Habsent. exact Hps. }
    destruct (mockStateData_entries year series Hin) as [[-> ->] | [-> Hvalues]].
    + unfold months in Hm.
      cbn [map SAMPLE_TIMESERIES month expenditure] in Hout.
      do 12 (destruct i as [|i];
             [injection Hm as <-; injection Hrow as <-;
              first [reflexivity
                    | exfalso;
                      first [ apply (Hout "Apr" #12000); [cbn [In]; tauto | reflexivity]
                            | apply (Hout "May" #13000); [cbn [In]; tauto | reflexivity]
                            | apply (Hout "Jun" #12500); [cbn [In]; tauto | reflexivity]
                            | apply (Hout "Jul" #14000); [cbn [In]; tauto | reflexivity]
                            | apply (Hout "Aug" #15000); [cbn [In]; tauto | reflexivity]
                            | apply (Hout "Sep" #11800); [cbn [In]; tauto | reflexivity]
                            | apply (Hout "Oct" #12700); [cbn [In]; tauto | reflexivity]
                            | apply (Hout "Nov" #13200); [cbn [In]; tauto | reflexivity]
                            | apply (Hout "Dec" #15209); [cbn [In]; tauto | reflexivity]]]|]).
      destruct i; discriminate Hm.
    + unfold months in Hm. rewrite Hvalues in Hout.
      do 12 (destruct i as [|i];
             [injection Hm as <-; injection Hrow as <-;
              first [reflexivity
                    | exfalso;
                      first [ apply (Hout "Apr" #13000); [cbn [In]; tauto | reflexivity]
                            | apply (Hout "May" #14000); [cbn [In]; tauto | reflexivity]
                            | apply (Hout "Jun" #13500); [cbn [In]; tauto | reflexivity]
                            | apply (Hout "Jul" #15000); [cbn [In]; tauto | reflexivity]
                            | apply (Hout "Aug" #16000); [cbn [In]; tauto | reflexivity]
                            | apply (Hout "Sep" #12800); [cbn [In]; tauto | reflexivity]
                            | apply (Hout "Oct" #13700); [cbn [In]; tauto | reflexivity]
                            | apply (Hout "Nov" #14200); [cbn [In]; tauto | reflexivity]
                            | apply (Hout "Dec" #16209); [cbn [In]; tauto | reflexivity]]]|]).
      destruct i; discriminate Hm.
Qed.

(* ================================================================== *)
(** ** The district fetch and its fallback *)
(* ================================================================== *)

(** The recovery branch, run from any state. *)
Lemma fallback_runs (code : string) (st : Dashboard) :
  bind (alert "Failed to fetch live data, showing sample instead.")
       (fun _ => bind (setDistrictInfo (fallback_kpis code))
                      (fun _ => setTimeseries (value_of_series SAMPLE_TIMESERIES)))
       st
  = (Some tt,
     {| district := district st;
        districtInfo := fallback_kpis code;
        timeseries := value_of_series SAMPLE_TIMESERIES;
        alerts := alerts st ++ ["Failed to fetch live data, showing sample instead."] |}).
Proof.
  reflexivity.
Qed.

Lemma district_effect_failure (code : string) (r : response) (st : Dashboard) :
  JSString.truthy code = true ->
  fetch_fails r ->
  district_effect code r st
  = (Some tt,
     {| district := district st;
        districtInfo := fallback_kpis code;
        timeseries := value_of_series SAMPLE_TIMESERIES;
        alerts := alerts st ++ ["Failed to fetch live data, showing sample instead."] |}).
Proof.
  intros Hcode Hr. unfold district_effect. rewrite Hcode. cbn [negb].
  unfold try_catch.
  destruct Hr as [-> | ->]; cbn [fetch_json bind throw lift]; apply fallback_runs.
Qed.

Lemma fallback_name_listed (code : string) (d : District) :
  In d SAMPLE_DISTRICTS -> district_code d = code ->
  fallback_name code = district_name d.
Proof.
  intros Hin <-. unfold SAMPLE_DISTRICTS in Hin. cbn [In] in Hin.
  repeat (destruct Hin as [<- | Hin]; [reflexivity|]).
  contradiction.
Qed.

Lemma fallback_name_unlisted (code : string) :
  (forall d, In d SAMPLE_DISTRICTS -> district_code d <> code) ->
  fallback_name code = "Unknown".
Proof.
  intros Hout. unfold fallback_name.
  destruct (find_district code) as [d|] eqn:Hfind; [|reflexivity].
  apply find_some in Hfind. destruct Hfind as [Hin Heq].
  apply String.eqb_eq in Heq. elim (Hout d Hin Heq).
Qed.

Lemma fallback_other_fields (code code' key : string) :
  key <> "district_name" ->
  JSValue.get (fallback_kpis code) key = JSValue.get (fallback_kpis code') key.
Proof.
  intros Hkey. unfold fallback_kpis. cbn [JSValue.get JSValue.lookup].
  destruct (String.eqb_spec "district_name" key) as [Heq|_]; [congruence|].
  reflexivity.
Qed.

(** C1, as the code has it.  When the fetch for a selected district code
    fails (the transport fails or the body is not JSON), the user is
    notified, the time-series becomes the built-in sample series and the
    KPI snapshot becomes the built-in fallback snapshot; the selected
    district stays.  Every field of that snapshot other than
    [district_name] is the same whichever code was selected. *)
Theorem failed_fetch_shows_sample (code : string) (r : response) (st : Dashboard) :
  JSString.truthy code = true ->
  fetch_fails r ->
  let st' := snd (district_effect code r st) in
  alerts st' = (alerts st ++ ["Failed to fetch live data, showing sample instead."])%list /\
  timeseries st' = value_of_series SAMPLE_TIMESERIES /\
  districtInfo st' = fallback_kpis code /\
  district st' = district st /\
  (forall code' key : string,
      key <> "district_name" ->
      JSValue.get (fallback_kpis code) key = JSValue.get (fallback_kpis code') key).
Proof.
  intros Hcode Hr. cbv zeta.
  rewrite (district_effect_failure code r st Hcode Hr). cbn [snd alerts timeseries districtInfo district].
  repeat split.
  intros code' key Hkey. apply fallback_other_fields. exact Hkey.
Qed.

Lemma failed_fetch_shows_sample_witness :
  timeseries (snd (district_effect "0501" NetworkError Dashboard_initial))
  = value_of_series SAMPLE_TIMESERIES /\
  alerts (snd (district_effect "0501" NetworkError Dashboard_initial))
  = ["Failed to fetch live data, showing sample instead."].
Proof.
  destruct (failed_fetch_shows_sample "0501" NetworkError Dashboard_initial
              eq_refl (or_introl eq_refl)) as [Ha [Ht _]].
  split; [exact Ht | exact Ha].
Defined.

(** C1 as written fails: the snapshot substituted after a failed fetch is
    not the same for every district code.  After the same failure the
    snapshot for 0501 names PATNA and the snapshot for 0502 names
    NALANDA. *)
Lemma fallback_snapshot_varies :
  JSValue.get (districtInfo (snd (district_effect "0501" NetworkError Dashboard_initial)))
              "district_name"
  = Some (VStr "PATNA") /\
  JSValue.get (districtInfo (snd (district_effect "0502" NetworkError Dashboard_initial)))
              "district_name"
  = Some (VStr "NALANDA").
Proof.
  rewrite !district_effect_failure by (reflexivity || (left; reflexivity)).
  cbn [snd districtInfo]. split; reflexivity.
Qed.

(** C10.  After a failed fetch the snapshot's [district_name] is the name
    of the listed district with the selected code, and ['Unknown'] when
    no listed district has that code; every other field of the snapshot
    is a constant that does not depend on the code. *)
Theorem fallback_district_name (code : string) (r : response) (st : Dashboard) :
  JSString.truthy code = true ->
  fetch_fails r ->
  let kpis := districtInfo (snd (district_effect code r st)) in
  (forall d : District,
      In d SAMPLE_DISTRICTS -> district_code d = code ->
      JSValue.get kpis "district_name" = Some (VStr (district_name d))) /\
  ((forall d : District, In d SAMPLE_DISTRICTS -> district_code d <> code) ->
   JSValue.get kpis "district_name" = Some (VStr "Unknown")) /\
  JSValue.get kpis "Total_Individuals_Worked" = Some (VNum #90928) /\
  JSValue.get kpis "Total_Households_Worked" = Some (VNum #87155) /\
  JSValue.get kpis "Total_Exp" = Some (VNum #15209) /\
  JSValue.get kpis "Women_Persondays" = Some (VNum #1696959) /\
  JSValue.get kpis "Average_days_of_employment_provided_per_Household" = Some (VNum #39) /\
  JSValue.get kpis "percentage_payments_gererated_within_15_days" = Some (VNum lit_100_74) /\
  (forall key : string,
      JSValue.get kpis key <> Some VUndefined ->
      In key ["district_name"; "Total_Individuals_Worked"; "Total_Households_Worked";
              "Total_Exp"; "Women_Persondays";
              "Average_days_of_employment_provided_per_Household";
              "percentage_payments_gererated_within_15_days"]).
Proof.
  intros Hcode Hr. cbv zeta.
  rewrite (district_effect_failure code r st Hcode Hr). cbn [snd districtInfo].
  split; [|split].
  - intros d Hin Hd. unfold fallback_kpis. cbn [JSValue.get JSValue.lookup].
    rewrite String.eqb_refl. rewrite (fallback_name_listed code d Hin Hd). reflexivity.
  - intros Hout. unfold fallback_kpis. cbn [JSValue.get JSValue.lookup].
    rewrite String.eqb_refl. rewrite (fallback_name_unlisted code Hout). reflexivity.
  - repeat split.
    intros key Hkey. unfold fallback_kpis in Hkey. cbn [JSValue.get JSValue.lookup] in Hkey.
    cbn [In].
    repeat match type of Hkey with
           | context [String.eqb ?k key] =>
               destruct (String.eqb_spec k key); [auto 10|]
           end.
    congruence.
Qed.

Lemma fallback_district_name_witness :
  JSValue.get (districtInfo (snd (district_effect "0544" (Body None) Dashboard_initial)))
              "district_name"
  = Some (VStr "SUPAUL").
Proof.
  destruct (fallback_district_name "0544" (Body None) Dashboard_initial
              eq_refl (or_intror eq_refl)) as [Hlisted _].
  apply (Hlisted {| district_code := "0544"; district_name := "SUPAUL" |}).
  - cbn [In SAMPLE_DISTRICTS]. auto 10.
  - reflexivity.
Defined.

(** A body that parses to anything but [null] has its two fields read
    without error. *)
Lemma get_defined (data : value) (key : string) :
  data <> VNull -> data <> VUndefined ->
  exists v : value, JSValue.get data key = Some v.
Proof.
  intros Hnull Hundef.
  destruct data as [ | |b|x|s|items|fields]; cbn [JSValue.get]; try congruence; eauto.
  destruct (JSValue.lookup fields key); eauto.
Qed.

(** C6, as the code has it.  When the fetch for a selected district
    succeeds with a body that parses to a JSON value other than [null],
    the KPI snapshot becomes the payload's [kpis] field and the
    time-series becomes the payload's [timeseries] field when that field
    is truthy and the empty list otherwise.  Both are replaced whole:
    nothing of the earlier snapshot or series remains, no alert is
    raised and the selected district stays. *)
Theorem successful_fetch_replaces (code : string) (data : value) (st : Dashboard) :
  JSString.truthy code = true ->
  data <> VNull -> data <> VUndefined ->
  exists kpis series : value,
    JSValue.get data "kpis" = Some kpis /\
    JSValue.get data "timeseries" = Some series /\
    district_effect code (Body (Some data)) st
    = (Some tt,
       {| district := district st;
          districtInfo := kpis;
          timeseries := if JSValue.truthy series then series else VArr [];
          alerts := alerts st |}).
Proof.
  intros Hcode Hnull Hundef.
  destruct (get_defined data "kpis" Hnull Hundef) as [kpis Hk].
  destruct (get_defined data "timeseries" Hnull Hundef) as [series Hs].
  exists kpis, series. split; [exact Hk|]. split; [exact Hs|].
  unfold district_effect. rewrite Hcode. cbn [negb].
  unfold try_catch, bind, fetch_json, lift. rewrite Hk.
  cbn [setDistrictInfo]. rewrite Hs. reflexivity.
Qed.

Lemma successful_fetch_replaces_witness :
  exists kpis series : value,
    JSValue.get (VObj [("kpis", VObj [("Total_Exp", VNum #7)]);
                       ("timeseries", VArr [VNum #1])]) "kpis" = Some kpis /\
    JSValue.get (VObj [("kpis", VObj [("Total_Exp", VNum #7)]);
                       ("timeseries", VArr [VNum #1])]) "timeseries" = Some series /\
    district_effect "0502"
      (Body (Some (VObj [("kpis", VObj [("Total_Exp", VNum #7)]);
                         ("timeseries", VArr [VNum #1])])))
      Dashboard_initial
    = (Some tt,
       {| district := "";
          districtInfo := kpis;
          timeseries := if JSValue.truthy series then series else VArr [];
          alerts := [] |}).
Proof.
  apply (successful_fetch_replaces "0502"
           (VObj [("kpis", VObj [("Total_Exp", VNum #7)]); ("timeseries", VArr [VNum #1])])
           Dashboard_initial eq_refl); discriminate.
Defined.

(** C6 as written fails on two bodies that parse as JSON.  A payload
    with no [timeseries] field leaves the empty list as the series, not
    the (undefined) field; and the body [null] has no fields at all, so
    reading [kpis] throws and the sample fallback is shown with its
    alert. *)
Lemma payload_not_always_kept :
  (JSValue.get (VObj [("kpis", VObj [])]) "timeseries" = Some VUndefined /\
   timeseries (snd (district_effect "0501" (Body (Some (VObj [("kpis", VObj [])])))
                                    Dashboard_initial))
   = VArr [])
  /\
  (districtInfo (snd (district_effect "0501" (Body (Some VNull)) Dashboard_initial))
   = fallback_kpis "0501" /\
   alerts (snd (district_effect "0501" (Body (Some VNull)) Dashboard_initial))
   = ["Failed to fetch live data, showing sample instead."]).
Proof.
  split; split; reflexivity.
Qed.

(* ================================================================== *)
(** ** The geolocation heuristic *)
(* ================================================================== *)

Section StringFacts.

Import JSString.

Lemma append_empty_r (s : string) : s ++ "" = s.
Proof.
  induction s as [|c s IH]; simpl; [reflexivity | rewrite IH; reflexivity].
Qed.

Lemma append_assoc (a b c : string) : (a ++ b) ++ c = a ++ b ++ c.
Proof.
  induction a as [|x a IH]; simpl; [reflexivity | rewrite IH; reflexivity].
Qed.

Lemma prefix_spec (t s : string) :
  String.prefix t s = true <-> exists rest : string, s = t ++ rest.
Proof.
  revert s. induction t as [|a t IH]; intros s.
  - destruct s; simpl; split; eauto.
  - destruct s as [|b s]; simpl.
    + split; [discriminate | intros [rest Hrest]; discriminate Hrest].
    + destruct (ascii_dec a b) as [->|Hne].
      * rewrite IH. split; intros [rest Hrest]; exists rest; congruence.
      * split; [discriminate | intros [rest Hrest]; congruence].
Qed.

Lemma includes_spec (s t : string) :
  includes s t = true <-> exists before rest : string, s = before ++ t ++ rest.
Proof.
  induction s as [|c s IH].
  - cbn [includes]. destruct (String.prefix t "") eqn:Hp.
    + apply prefix_spec in Hp. destruct Hp as [rest Hrest].
      split; [intros _; exists "", rest; exact Hrest | reflexivity].
    + split; [discriminate|]. intros [before [rest Heq]].
      destruct before; [|discriminate Heq].
      assert (Hp' : String.prefix t "" = true) by (apply prefix_spec; eauto).
      congruence.
  - cbn [includes]. destruct (String.prefix t (String c s)) eqn:Hp.
    + apply prefix_spec in Hp. destruct Hp as [rest Hrest].
      split; [intros _; exists "", rest; exact Hrest | reflexivity].
    + rewrite IH. split.
      * intros [before [rest Heq]]. exists (String c before), rest.
        simpl. rewrite Heq. reflexivity.
      * intros [before [rest Heq]]. destruct before as [|b before].
        -- assert (Hp' : String.prefix t (String c s) = true)
             by (apply prefix_spec; eauto).
           congruence.
        -- simpl in Heq. injection Heq as _ Heq. eauto.
Qed.

(** *** Capitals, character by character *)

Lemma capitals_app (a b : string) :
  capitals (a ++ b) = capitals a ++ capitals b.
Proof.
  induction a as [|c a IH]; simpl; [reflexivity | rewrite IH; reflexivity].
Qed.

Lemma capitals_app_inv (s x y : string) :
  capitals s = x ++ y ->
  exists a b : string, s = a ++ b /\ capitals a = x /\ capitals b = y.
Proof.
  revert s. induction x as [|c x IH]; intros s Heq.
  - exists "", s. auto.
  - destruct s as [|c' s]; [discriminate Heq|].
    simpl in Heq. injection Heq as Hc Heq.
    destruct (IH s Heq) as [a [b [-> [Ha Hb]]]].
    exists (String c' a), b. simpl. rewrite Hc, Ha. auto.
Qed.

Lemma same_letter_capital (a : ascii) : same_letter a (upper_ascii a).
Proof.
  destruct a as [[] [] [] [] [] [] [] []];
    first [ left; reflexivity
          | right; left; unfold letter_pairs, upper_ascii; cbn;
            repeat first [ left; reflexivity | right ] ].
Qed.

Lemma capital_of_same_letter (a b : ascii) :
  same_letter a b -> upper_ascii b = b -> upper_ascii a = b.
Proof.
  intros [-> | [Hin | Hin]] Hb; [exact Hb | |];
    unfold letter_pairs in Hin; cbn [In] in Hin;
    repeat (destruct Hin as [Hin | Hin];
            [injection Hin as <- <-; first [reflexivity | discriminate Hb] |]);
    destruct Hin.
Qed.

Lemma ascii_of_same_letter (a b : ascii) :
  same_letter a b -> ascii_char b = true -> ascii_char a = true.
Proof.
  intros [-> | [Hin | Hin]] Hb; [exact Hb | |];
    unfold letter_pairs in Hin; cbn [In] in Hin;
    repeat (destruct Hin as [Hin | Hin];
            [injection Hin as <- <-; reflexivity |]);
    destruct Hin.
Qed.

Lemma equal_ignoring_case_capitals (x : string) :
  equal_ignoring_case x (capitals x).
Proof.
  induction x as [|a x IH]; cbn [capitals]; constructor;
    [apply same_letter_capital | exact IH].
Qed.

Lemma capitals_of_equal (x token : string) :
  equal_ignoring_case x token -> capitals token = token -> capitals x = token.
Proof.
  induction 1 as [|a b x y Hab _ IH]; [reflexivity|].
  cbn [capitals]. intros Heq. injection Heq as Hb Hy.
  rewrite (capital_of_same_letter a b Hab Hb), (IH Hy). reflexivity.
Qed.

Lemma ascii_of_equal (x token : string) :
  equal_ignoring_case x token -> is_ascii token = true -> is_ascii x = true.
Proof.
  induction 1 as [|a b x y Hab _ IH]; [reflexivity|].
  cbn [is_ascii]. intros Hy. apply andb_prop in Hy. destruct Hy as [Hb Hy].
  rewrite (ascii_of_same_letter a b Hab Hb), (IH Hy). reflexivity.
Qed.

(** Looking for a token written in capitals among the capitals of a text
    is looking for the token with the case of letters ignored. *)
Lemma includes_capitals_spec (s token : string) :
  capitals token = token ->
  includes (capitals s) token = true <-> occurs_ignoring_case token s.
Proof.
  intros Hup. rewrite includes_spec. unfold occurs_ignoring_case. split.
  - intros [before [rest Heq]].
    destruct (capitals_app_inv _ _ _ Heq) as [a [s' [-> [_ Hs']]]].
    destruct (capitals_app_inv _ _ _ Hs') as [b [c [-> [Hb _]]]].
    exists a, b, c. split; [reflexivity|].
    rewrite <- Hb. apply equal_ignoring_case_capitals.
  - intros [before [middle [rest [-> Hmid]]]].
    exists (capitals before), (capitals rest).
    rewrite !capitals_app, (capitals_of_equal _ _ Hmid Hup). reflexivity.
Qed.

(** *** The upper-case form *)

Lemma special_keys_no_ascii (key up : string) :
  special_upper key = Some up -> no_ascii key = true.
Proof.
  unfold special_upper.
  destruct (find _ special_casing) as [entry|] eqn:Hfind; [|discriminate].
  intros _. apply find_some in Hfind. destruct Hfind as [Hin Heq].
  apply String.eqb_eq in Heq. subst key.
  assert (Hall : forallb (fun e => no_ascii (fst e)) special_casing = true)
    by reflexivity.
  rewrite forallb_forall in Hall. exact (Hall entry Hin).
Qed.

Lemma special_upper_ascii (key : string) :
  no_ascii key = false -> special_upper key = None.
Proof.
  intros Hkey. destruct (special_upper key) as [up|] eqn:Hup; [|reflexivity].
  rewrite (special_keys_no_ascii _ _ Hup) in Hkey. discriminate Hkey.
Qed.

Lemma toUpperCase_two (a b : ascii) (s up : string) :
  special_upper (String a (String b "")) = Some up ->
  toUpperCase (String a (String b s)) = up ++ toUpperCase s.
Proof.
  intros Hup. cbn [toUpperCase]. rewrite Hup. reflexivity.
Qed.

Lemma toUpperCase_three (a b c : ascii) (s up : string) :
  special_upper (String a (String b "")) = None ->
  special_upper (String a (String b (String c ""))) = Some up ->
  toUpperCase (String a (String b (String c s))) = up ++ toUpperCase s.
Proof.
  intros Htwo Hup. cbn [toUpperCase]. rewrite Htwo, Hup. reflexivity.
Qed.

Lemma toUpperCase_plain_two (a b : ascii) :
  special_upper (String a (String b "")) = None ->
  toUpperCase (String a (String b ""))
  = String (upper_ascii a) (toUpperCase (String b "")).
Proof.
  intros Htwo. cbn [toUpperCase]. rewrite Htwo. reflexivity.
Qed.

Lemma toUpperCase_plain_three (a b c : ascii) (s : string) :
  special_upper (String a (String b "")) = None ->
  special_upper (String a (String b (String c ""))) = None ->
  toUpperCase (String a (String b (String c s)))
  = String (upper_ascii a) (toUpperCase (String b (String c s))).
Proof.
  intros Htwo Hthree. cbn [toUpperCase]. rewrite Htwo, Hthree. reflexivity.
Qed.

Lemma no_ascii_second (a b : ascii) :
  ascii_char b = true -> no_ascii (String a (String b "")) = false.
Proof.
  intros Hb. cbn [no_ascii]. rewrite Hb. apply andb_false_r.
Qed.

Lemma no_ascii_third (a b c : ascii) :
  ascii_char c = true -> no_ascii (String a (String b (String c ""))) = false.
Proof.
  intros Hc. cbn [no_ascii]. rewrite Hc.
  destruct (ascii_char a), (ascii_char b); reflexivity.
Qed.

Lemma no_ascii_first (a : ascii) (key : string) :
  ascii_char a = true -> no_ascii (String a key) = false.
Proof.
  intros Ha. cbn [no_ascii]. rewrite Ha. reflexivity.
Qed.

(** An ASCII character is upper-cased on its own. *)
Lemma toUpperCase_ascii (a : ascii) (s : string) :
  ascii_char a = true ->
  toUpperCase (String a s) = String (upper_ascii a) (toUpperCase s).
Proof.
  intros Ha. destruct s as [|b [|c s]].
  - reflexivity.
  - apply toUpperCase_plain_two, special_upper_ascii, no_ascii_first, Ha.
  - apply toUpperCase_plain_three; apply special_upper_ascii, no_ascii_first, Ha.
Qed.

(** No character of the table reaches across an ASCII character: the
    upper-case form can be taken on either side of it. *)
Lemma toUpperCase_split (n : nat) :
  forall (x : string) (a : ascii) (y : string),
    (String.length x <= n)%nat ->
    ascii_char a = true ->
    toUpperCase (x ++ String a y) = toUpperCase x ++ toUpperCase (String a y).
Proof.
  induction n as [|n IH]; intros x a y Hlen Ha.
  - destruct x; [reflexivity | simpl in Hlen; lia].
  - destruct x as [|c [|b x2]]; [reflexivity | |].
    + cbn [append].
      destruct y as [|e y].
      * rewrite toUpperCase_plain_two
          by (apply special_upper_ascii, no_ascii_second, Ha).
        reflexivity.
      * rewrite toUpperCase_plain_three;
          [reflexivity
          | apply special_upper_ascii, no_ascii_second, Ha
          | apply special_upper_ascii; cbn [no_ascii]; rewrite Ha;
            destruct (ascii_char c); reflexivity].
    + simpl in Hlen.
      destruct (special_upper (String c (String b ""))) as [up|] eqn:Htwo.
      * cbn [append]. rewrite !(toUpperCase_two _ _ _ _ Htwo).
        rewrite (IH x2 a y) by (assumption || lia).
        rewrite append_assoc. reflexivity.
      * destruct x2 as [|d x3].
        -- cbn [append].
           rewrite toUpperCase_plain_three;
             [| exact Htwo | apply special_upper_ascii, no_ascii_third, Ha].
           rewrite (toUpperCase_plain_two _ _ Htwo).
           change (String b (String a y)) with (String b "" ++ String a y).
           rewrite (IH (String b "") a y) by (assumption || (simpl; lia)).
           reflexivity.
        -- destruct (special_upper (String c (String b (String d ""))))
             as [up|] eqn:Hthree.
           ++ cbn [append]. rewrite !(toUpperCase_three _ _ _ _ _ Htwo Hthree).
              rewrite (IH x3 a y) by (assumption || (simpl in Hlen; lia)).
              rewrite append_assoc. reflexivity.
           ++ cbn [append]. rewrite !(toUpperCase_plain_three _ _ _ _ Htwo Hthree).
              change (String b (String d (x3 ++ String a y)))
                with (String b (String d x3) ++ String a y).
              rewrite (IH (String b (String d x3)) a y)
                by (assumption || (simpl in *; lia)).
              reflexivity.
Qed.

Lemma toUpperCase_ascii_app (m r : string) :
  is_ascii m = true -> toUpperCase (m ++ r) = capitals m ++ toUpperCase r.
Proof.
  induction m as [|a m IH]; [reflexivity|].
  cbn [is_ascii append capitals]. intros Hm.
  apply andb_prop in Hm. destruct Hm as [Ha Hm].
  rewrite (toUpperCase_ascii _ _ Ha), (IH Hm). reflexivity.
Qed.

(** On ASCII text the upper-case form is the text in capitals. *)
Lemma toUpperCase_capitals (s : string) :
  is_ascii s = true -> toUpperCase s = capitals s.
Proof.
  intros Hs. rewrite <- (append_empty_r s) at 1.
  rewrite (toUpperCase_ascii_app _ _ Hs). apply append_empty_r.
Qed.

(** Whatever the text, a token in ASCII capitals that occurs in it with
    case ignored occurs in its upper-case form. *)
Lemma includes_upper_complete (s token : string) :
  is_ascii token = true -> capitals token = token ->
  occurs_ignoring_case token s ->
  includes (toUpperCase s) token = true.
Proof.
  intros Hascii Hup [before [middle [rest [-> Hmid]]]].
  pose proof (ascii_of_equal _ _ Hmid Hascii) as Hm.
  pose proof (capitals_of_equal _ _ Hmid Hup) as Hcap.
  apply includes_spec. destruct middle as [|a m].
  - exists "", (toUpperCase (before ++ rest)).
    cbn [capitals] in Hcap. subst token. reflexivity.
  - exists (toUpperCase before), (toUpperCase rest).
    cbn [is_ascii] in Hm.
    pose proof Hm as Hm'. apply andb_prop in Hm'. destruct Hm' as [Ha _].
    cbn [append].
    rewrite (toUpperCase_split (String.length before) before a (m ++ rest)
               (le_n _) Ha).
    change (String a (m ++ rest)) with (String a m ++ rest).
    rewrite (toUpperCase_ascii_app (String a m) rest Hm), Hcap. reflexivity.
Qed.

(** On ASCII text the search in the upper-case form finds exactly the
    occurrences with case ignored. *)
Lemma includes_upper_spec (s token : string) :
  is_ascii s = true -> capitals token = token ->
  includes (toUpperCase s) token = true <-> occurs_ignoring_case token s.
Proof.
  intros Hs Hup. rewrite (toUpperCase_capitals _ Hs).
  apply includes_capitals_spec, Hup.
Qed.

End StringFacts.

Lemma find_first_spec {A : Type} (p : A -> bool) (l : list A) (d : A) :
  find p l = Some d <->
  exists earlier later : list A,
    l = (earlier ++ d :: later)%list /\ p d = true /\
    forall x : A, In x earlier -> p x = false.
Proof.
  induction l as [|x l IH]; simpl.
  - split; [discriminate|]. intros [[|y e] [later [Heq _]]]; discriminate Heq.
  - destruct (p x) eqn:Hx.
    + split.
      * intros [= ->]. exists [], l.
        split; [reflexivity|]. split; [exact Hx|]. intros y [].
      * intros [[|y e] [later [Heq [Hd Hbefore]]]].
        -- simpl in Heq. congruence.
        -- simpl in Heq. injection Heq as -> _.
           rewrite (Hbefore y (or_introl eq_refl)) in Hx. discriminate Hx.
    + rewrite IH. split.
      * intros [e [later [-> [Hd Hbefore]]]]. exists (x :: e), later.
        simpl. split; [reflexivity|]. split; [exact Hd|].
        intros y [<-|Hy]; auto.
      * intros [[|y e] [later [Heq [Hd Hbefore]]]].
        -- simpl in Heq. congruence.
        -- simpl in Heq. injection Heq as -> ->.
           exists e, later. split; [reflexivity|]. split; [exact Hd|].
           intros z Hz. apply Hbefore. right. exact Hz.
Qed.

Lemma find_none_spec {A : Type} (p : A -> bool) (l : list A) :
  find p l = None <-> forall x : A, In x l -> p x = false.
Proof.
  split; [apply find_none|].
  induction l as [|x l IH]; simpl; intros Hall; [reflexivity|].
  rewrite (Hall x (or_introl eq_refl)). apply IH. auto.
Qed.

Lemma tokens_in_capitals :
  forall d : District,
    In d SAMPLE_DISTRICTS ->
    is_ascii (JSString.first_token (district_name d)) = true /\
    capitals (JSString.first_token (district_name d))
    = JSString.first_token (district_name d).
Proof.
  apply Forall_forall. repeat constructor.
Qed.

(** On a string the search of [match_district] throws nowhere and is
    [first_match]. *)
Lemma match_district_string (locality : string) (st : Dashboard) :
  match_district (VStr locality) st = (Some (first_match locality), st).
Proof.
  destruct locality as [|c locality]; [reflexivity|].
  unfold match_district, first_match.
  cbn [JSValue.truthy JSString.truthy negb upper_includes].
  induction SAMPLE_DISTRICTS as [|d l IH]; [reflexivity|].
  cbn [find_with find]. unfold bind at 1. unfold ret at 1.
  destruct (JSString.includes _ _); [reflexivity | exact IH].
Qed.

Lemma handleDetect_string (jd : value) (locality : string) (st : Dashboard) :
  locality_of jd = Some (VStr locality) ->
  handleDetect (GeoPosition (Body (Some jd))) st
  = match first_match locality with
    | Some d => setDistrict (district_code d) st
    | None => alert "Could not auto-detect district. Please select from list." st
    end.
Proof.
  intros Hloc. cbn [handleDetect].
  unfold try_catch, bind, fetch_json, lift. rewrite Hloc.
  rewrite match_district_string.
  destruct (first_match locality); reflexivity.
Qed.

Lemma match_district_falsy (locality : value) (st : Dashboard) :
  JSValue.truthy locality = false ->
  match_district locality st = (Some None, st).
Proof.
  intros Hfalse. unfold match_district. rewrite Hfalse. cbn [negb].
  induction SAMPLE_DISTRICTS as [|d l IH]; [reflexivity|].
  cbn [find_with]. unfold bind at 1. unfold ret at 1. exact IH.
Qed.

Lemma match_district_throws (locality : value) (st : Dashboard) :
  JSValue.truthy locality = true ->
  (forall s : string, locality <> VStr s) ->
  match_district locality st = (None, st).
Proof.
  intros Htrue Hnot. unfold match_district. rewrite Htrue. cbn [negb].
  destruct locality as [ | |b|x|s|items|fields]; try reflexivity.
  elim (Hnot s). reflexivity.
Qed.

Lemma heuristic_occurs (locality : string) (d : District) :
  is_ascii locality = true ->
  In d SAMPLE_DISTRICTS ->
  JSString.includes (JSString.toUpperCase locality)
                    (JSString.first_token (district_name d)) = true
  <-> occurs_ignoring_case (JSString.first_token (district_name d)) locality.
Proof.
  intros Hascii Hin. apply includes_upper_spec; [exact Hascii|].
  apply tokens_in_capitals, Hin.
Qed.

Lemma heuristic_misses (locality : string) (d : District) :
  is_ascii locality = true ->
  In d SAMPLE_DISTRICTS ->
  JSString.includes (JSString.toUpperCase locality)
                    (JSString.first_token (district_name d)) = false
  <-> ~ occurs_ignoring_case (JSString.first_token (district_name d)) locality.
Proof.
  intros Hascii Hin. rewrite <- (heuristic_occurs locality d Hascii Hin).
  destruct (JSString.includes _ _); split; congruence.
Qed.

(** C5, as the code has it.  The heuristic goes through the listed
    districts in list order and takes the first one whose token, the
    first whitespace-delimited word of its name, is found in the
    upper-case form of the locality; [handleDetect] selects that
    district, and shows the notice to select from the list when there is
    none.  A token that occurs in the locality with the case of letters
    ignored is always found.  In a locality of ASCII characters nothing
    else is found: the district selected is the first in list order
    whose token occurs in the locality with case ignored, and the notice
    is shown exactly when no token does.  The localities PATNA DIVISION
    and Patna Division select code 0501 (PATNA), as does a locality that
    names Nalanda before Patna; UNKNOWNPLACE and unknownplace match no
    district and bring the notice. *)
Theorem detect_first_token_match :
  (forall d : District,
      In d SAMPLE_DISTRICTS ->
      JSString.first_token (district_name d) = leading_word (district_name d)) /\
  (forall (jd : value) (locality : string) (st : Dashboard),
      locality_of jd = Some (VStr locality) ->
      handleDetect (GeoPosition (Body (Some jd))) st
      = match first_match locality with
        | Some d => setDistrict (district_code d) st
        | None => alert "Could not auto-detect district. Please select from list." st
        end) /\
  (forall (locality : string) (d : District),
      first_match locality = Some d <->
      exists earlier later : list District,
        SAMPLE_DISTRICTS = (earlier ++ d :: later)%list /\
        JSString.includes (JSString.toUpperCase locality)
                          (JSString.first_token (district_name d)) = true /\
        forall d' : District,
          In d' earlier ->
          JSString.includes (JSString.toUpperCase locality)
                            (JSString.first_token (district_name d')) = false) /\
  (forall (locality : string) (d : District),
      In d SAMPLE_DISTRICTS ->
      occurs_ignoring_case (JSString.first_token (district_name d)) locality ->
      JSString.includes (JSString.toUpperCase locality)
                        (JSString.first_token (district_name d)) = true /\
      first_match locality <> None) /\
  (forall (locality : string) (d : District),
      is_ascii locality = true ->
      first_match locality = Some d <->
      exists earlier later : list District,
        SAMPLE_DISTRICTS = (earlier ++ d :: later)%list /\
        occurs_ignoring_case (JSString.first_token (district_name d)) locality /\
        forall d' : District,
          In d' earlier ->
          ~ occurs_ignoring_case (JSString.first_token (district_name d')) locality) /\
  (forall locality : string,
      is_ascii locality = true ->
      first_match locality = None <->
      forall d : District,
        In d SAMPLE_DISTRICTS ->
        ~ occurs_ignoring_case (JSString.first_token (district_name d)) locality) /\
  (forall (jd : value) (locality : string) (st : Dashboard),
      locality_of jd = Some (VStr locality) ->
      In locality ["PATNA DIVISION"; "Patna Division"; "Nalanda near Patna"] ->
      first_match locality
      = Some {| district_code := "0501"; district_name := "PATNA" |} /\
      handleDetect (GeoPosition (Body (Some jd))) st = setDistrict "0501" st) /\
  (forall (jd : value) (locality : string) (st : Dashboard),
      locality_of jd = Some (VStr locality) ->
      In locality ["UNKNOWNPLACE"; "unknownplace"] ->
      first_match locality = None /\
      notified st "Could not auto-detect district. Please select from list."
               (snd (handleDetect (GeoPosition (Body (Some jd))) st))).
Proof.
  split; [|split; [|split; [|split; [|split; [|split; [|split]]]]]].
  - apply Forall_forall. repeat constructor.
  - intros jd locality st Hloc. apply handleDetect_string, Hloc.
  - intros locality d. unfold first_match.
    apply (find_first_spec
             (fun x => JSString.includes (JSString.toUpperCase locality)
                                         (JSString.first_token (district_name x)))).
  - intros locality d Hin Hocc.
    destruct (tokens_in_capitals d Hin) as [Hascii Hcap].
    pose proof (includes_upper_complete _ _ Hascii Hcap Hocc) as Hfound.
    split; [exact Hfound|].
    unfold first_match. rewrite find_none_spec. intros Hnone.
    rewrite (Hnone d Hin) in Hfound. discriminate Hfound.
  - intros locality d Hascii. unfold first_match. rewrite find_first_spec. split.
    + intros [earlier [later [Hl [Hd Hbefore]]]].
      assert (Hin : forall x, In x (earlier ++ d :: later)%list -> In x SAMPLE_DISTRICTS)
        by (rewrite Hl; auto).
      exists earlier, later. split; [exact Hl|]. split.
      * apply heuristic_occurs; [exact Hascii | apply Hin, in_elt | exact Hd].
      * intros d' Hd'. apply heuristic_misses; [exact Hascii | | auto].
        apply Hin, in_or_app. left. exact Hd'.
    + intros [earlier [later [Hl [Hd Hbefore]]]].
      assert (Hin : forall x, In x (earlier ++ d :: later)%list -> In x SAMPLE_DISTRICTS)
        by (rewrite Hl; auto).
      exists earlier, later. split; [exact Hl|]. split.
      * apply heuristic_occurs; [exact Hascii | apply Hin, in_elt | exact Hd].
      * intros d' Hd'. apply heuristic_misses; [exact Hascii | | auto].
        apply Hin, in_or_app. left. exact Hd'.
  - intros locality Hascii. unfold first_match. rewrite find_none_spec.
    split; intros Hall d Hd; apply (heuristic_misses locality d Hascii Hd); auto.
  - intros jd locality st Hloc Hin.
    rewrite (handleDetect_string jd _ st Hloc).
    cbn [In] in Hin. destruct Hin as [<- | [<- | [<- | []]]];
      (split; [vm_compute; reflexivity|]);
      match goal with
      | |- context [first_match ?s] =>
          replace (first_match s)
            with (Some {| district_code := "0501"; district_name := "PATNA" |})
            by (vm_compute; reflexivity)
      end; reflexivity.
  - intros jd locality st Hloc Hin.
    rewrite (handleDetect_string jd _ st Hloc).
    cbn [In] in Hin. destruct Hin as [<- | [<- | []]];
      (split; [vm_compute; reflexivity|]);
      match goal with
      | |- context [first_match ?s] =>
          replace (first_match s) with (@None District) by (vm_compute; reflexivity)
      end; repeat split.
Qed.

Lemma detect_first_token_match_witness :
  handleDetect
    (GeoPosition (Body (Some (VObj [("city", VStr "Patna"); ("locality", VStr "Patna Division")]))))
    Dashboard_initial
  = setDistrict "0501" Dashboard_initial.
Proof.
  destruct detect_first_token_match as [_ [_ [_ [_ [_ [_ [Hpatna _]]]]]]].
  apply (Hpatna (VObj [("city", VStr "Patna"); ("locality", VStr "Patna Division")])
                "Patna Division" Dashboard_initial eq_refl).
  cbn [In]. auto.
Defined.

(** C5 as written fails outside ASCII.  The upper-case form of the
    dotless i is the letter I, so the locality below, in which no
    district's token occurs however the case of its letters is taken,
    selects PURBI CHAMPARAN. *)
Lemma dotless_i_locality_is_matched :
  JSString.toUpperCase "purbı champaran" = "PURBI CHAMPARAN" /\
  first_match "purbı champaran"
  = Some {| district_code := "0513"; district_name := "PURBI CHAMPARAN" |} /\
  handleDetect
    (GeoPosition (Body (Some (VObj [("locality", VStr "purbı champaran")]))))
    Dashboard_initial
  = setDistrict "0513" Dashboard_initial /\
  (forall d : District,
      In d SAMPLE_DISTRICTS ->
      ~ occurs_ignoring_case (JSString.first_token (district_name d))
                             "purbı champaran").
Proof.
  split; [reflexivity|]. split; [reflexivity|]. split; [reflexivity|].
  intros d Hin Hocc.
  apply includes_capitals_spec in Hocc; [|apply tokens_in_capitals, Hin].
  unfold SAMPLE_DISTRICTS in Hin. cbn [In] in Hin.
  repeat (destruct Hin as [<- | Hin]; [vm_compute in Hocc; discriminate Hocc|]).
  contradiction.
Qed.

(** C7.  When geolocation is unsupported, or the position is denied, the
    user is notified and nothing else is done; when reverse geocoding
    fails, or no district matches, the user is notified and told to
    select by hand.  In each of these cases the selected district and the
    data on display are left as they were. *)
Theorem handleDetect_failures_keep_view (st : Dashboard) :
  notified st "Geolocation not available on this device"
           (snd (handleDetect GeoUnsupported st)) /\
  notified st "Location permission denied or unavailable"
           (snd (handleDetect GeoDenied st)) /\
  (forall r : response,
      fetch_fails r ->
      notified st "Auto-detect failed — please select manually."
               (snd (handleDetect (GeoPosition r) st))) /\
  (forall jd : value,
      answer_unusable jd ->
      notified st "Auto-detect failed — please select manually."
               (snd (handleDetect (GeoPosition (Body (Some jd))) st))) /\
  (forall jd locality : value,
      locality_of jd = Some locality ->
      no_district_matches locality ->
      notified st "Could not auto-detect district. Please select from list."
               (snd (handleDetect (GeoPosition (Body (Some jd))) st))).
Proof.
  split; [|split; [|split; [|split]]].
  - repeat split.
  - repeat split.
  - intros r [-> | ->]; repeat split.
  - intros jd [Hnone | [locality [Hloc [Htrue Hnot]]]];
      cbn [handleDetect]; unfold try_catch, bind, fetch_json, lift.
    + rewrite Hnone. repeat split.
    + rewrite Hloc, (match_district_throws locality st Htrue Hnot). repeat split.
  - intros jd locality Hloc [Hfalse | [s [-> Hnone]]].
    + cbn [handleDetect]. unfold try_catch, bind, fetch_json, lift.
      rewrite Hloc, (match_district_falsy locality st Hfalse). repeat split.
    + rewrite (handleDetect_string jd s st Hloc), Hnone. repeat split.
Qed.

Lemma handleDetect_failures_keep_view_witness :
  notified Dashboard_initial "Auto-detect failed — please select manually."
           (snd (handleDetect (GeoPosition NetworkError) Dashboard_initial)) /\
  notified Dashboard_initial "Could not auto-detect district. Please select from list."
           (snd (handleDetect
                   (GeoPosition (Body (Some (VObj [("locality", VStr "UNKNOWNPLACE")]))))
                   Dashboard_initial)).
Proof.
  destruct (handleDetect_failures_keep_view Dashboard_initial)
    as [_ [_ [Hfail [_ Hnone]]]].
  split.
  - apply Hfail. left. reflexivity.
  - apply (Hnone (VObj [("locality", VStr "UNKNOWNPLACE")]) (VStr "UNKNOWNPLACE") eq_refl).
    right. exists "UNKNOWNPLACE". split; reflexivity.
Defined.

(* ================================================================== *)
(** ** The language flag *)
(* ================================================================== *)

Lemma Dashboard_labels_differ (st : Dashboard) :
  forallb variants_differ (Dashboard_labels st) = true.
Proof.
  unfold Dashboard_labels.
  destruct (negb (JSString.truthy (district st))), (JSValue.truthy (districtInfo st));
    vm_compute; reflexivity.
Qed.

Lemma page_labels_differ (app : App) :
  forallb variants_differ (page_labels app) = true.
Proof.
  unfold page_labels. destruct (current app).
  - apply Dashboard_labels_differ.
  - vm_compute. reflexivity.
  - vm_compute. reflexivity.
  - vm_compute. reflexivity.
  - vm_compute. reflexivity.
Qed.

Lemma screen_labels_differ (app : App) (hi_text en_text : string) :
  In (ByLang hi_text en_text) (screen_labels app) -> hi_text <> en_text.
Proof.
  intros Hin.
  assert (Hall : forallb variants_differ (screen_labels app) = true).
  { unfold screen_labels. rewrite !forallb_app, page_labels_differ. reflexivity. }
  rewrite forallb_forall in Hall. specialize (Hall _ Hin).
  cbn [variants_differ] in Hall.
  destruct (String.eqb_spec hi_text en_text); [discriminate Hall | assumption].
Qed.

(** C8, as the code has it.  The header button turns the flag into its
    other value, and pressing it twice restores the application.  Every
    label on screen that the code writes through the flag then shows its
    other variant, which is a different text.  No numeric value changes:
    the state of every page, and the data handed to the cards and charts
    of the page on screen, are what they were. *)
Theorem toggle_language_switches_flagged_labels (app : App) :
  lang (toggle_language app) = toggle (lang app) /\
  toggle_language (toggle_language app) = app /\
  screen_labels (toggle_language app) = screen_labels app /\
  (forall hi_text en_text : string,
      In (ByLang hi_text en_text) (screen_labels app) ->
      render (lang (toggle_language app)) (ByLang hi_text en_text)
      = match lang app with
        | en => hi_text
        | hi => en_text
        end /\
      render (lang (toggle_language app)) (ByLang hi_text en_text)
      <> render (lang app) (ByLang hi_text en_text)) /\
  home (toggle_language app) = home app /\
  years (toggle_language app) = years app /\
  d1 (toggle_language app) = d1 app /\
  d2 (toggle_language app) = d2 app /\
  screen_data (toggle_language app) = screen_data app.
Proof.
  split; [reflexivity|].
  split; [destruct app as [[|] r h y a b]; reflexivity|].
  split; [reflexivity|].
  split; [|repeat split].
  intros hi_text en_text Hin.
  pose proof (screen_labels_differ app hi_text en_text Hin) as Hne.
  cbn [toggle_language setLang lang].
  destruct (lang app); cbn [toggle render]; split; congruence.
Qed.

(** C8 as written fails: not every label on screen switches.  On the
    State Comparison page no label is written through the flag, and the
    page shows the same texts before and after the button is pressed. *)
Lemma state_comparison_labels_stay :
  map (render (lang (navigate StateComparisonRoute App_initial)))
      (page_labels (navigate StateComparisonRoute App_initial))
  = ["State Performance Comparison"; "2023-24"; "2024-25";
     "Monthly Expenditure"; "Total Households Worked"]
  /\
  map (render (lang (toggle_language (navigate StateComparisonRoute App_initial))))
      (page_labels (toggle_language (navigate StateComparisonRoute App_initial)))
  = ["State Performance Comparison"; "2023-24"; "2024-25";
     "Monthly Expenditure"; "Total Households Worked"]
  /\
  lang (toggle_language (navigate StateComparisonRoute App_initial)) = hi.
Proof.
  repeat split.
Qed.

(* ================================================================== *)
(** ** Further properties: the district fetch *)
(* ================================================================== *)

(** The effect in closed form, for every way the request can end. *)
Lemma district_effect_closed (code : string) (r : response) (st : Dashboard) :
  JSString.truthy code = true ->
  district_effect code r st
  = (Some tt,
     {| district := district st;
        districtInfo := shown_kpis code r;
        timeseries := shown_series r;
        alerts := if falls_back r
                  then alerts st ++ ["Failed to fetch live data, showing sample instead."]
                  else alerts st |}).
Proof.
  intros Hcode.
  destruct r as [|[data|]];
    try (apply district_effect_failure; [exact Hcode | unfold fetch_fails; auto]).
  unfold district_effect. rewrite Hcode. cbn [negb].
  unfold try_catch, bind, fetch_json, lift.
  destruct data as [ | |b|x|s|items|fields];
    cbn [JSValue.get shown_kpis shown_series falls_back]; try reflexivity.
  destruct (JSValue.lookup fields "kpis"), (JSValue.lookup fields "timeseries");
    reflexivity.
Qed.

Lemma shown_series_truthy (r : response) : JSValue.truthy (shown_series r) = true.
Proof.
  destruct r as [|[data|]]; try reflexivity.
  cbn [shown_series]. destruct (JSValue.get data "timeseries") as [series|]; [|reflexivity].
  unfold JSValue.or. destruct (JSValue.truthy series) eqn:Hs; [exact Hs | reflexivity].
Qed.

(** X1.  The response that arrives last decides what is on display.  When
    two requests come back one after the other, the snapshot and the
    series are those of the second alone: nothing of the first answer
    remains, and neither the earlier state nor the district selected by
    then plays a part. *)
Theorem last_response_wins (code1 code2 : string) (r1 r2 : response) (st : Dashboard) :
  JSString.truthy code2 = true ->
  let after_both := snd (district_effect code2 r2 (snd (district_effect code1 r1 st))) in
  districtInfo after_both = shown_kpis code2 r2 /\
  timeseries after_both = shown_series r2 /\
  districtInfo after_both = districtInfo (snd (district_effect code2 r2 st)) /\
  timeseries after_both = timeseries (snd (district_effect code2 r2 st)).
Proof.
  intros Hcode. cbv zeta.
  rewrite (district_effect_closed code2 r2 _ Hcode).
  rewrite (district_effect_closed code2 r2 st Hcode).
  repeat split.
Qed.

Lemma last_response_wins_witness :
  districtInfo
    (snd (district_effect "0501" NetworkError
            (snd (district_effect "0502"
                    (Body (Some (VObj [("kpis", VStr "late")]))) Dashboard_initial))))
  = fallback_kpis "0501".
Proof.
  destruct (last_response_wins "0502" "0501"
              (Body (Some (VObj [("kpis", VStr "late")]))) NetworkError
              Dashboard_initial eq_refl) as [Hk _].
  exact Hk.
Defined.

(** X2.  The effect contains every failure and touches nothing but the
    data: it always completes, it never changes the selected district, it
    raises the sample alert once exactly when it falls back on the sample
    (transport failure, a body that is not JSON, or a body that parses to
    [null]) and no alert otherwise, and with an empty code it leaves the
    whole state as it was, whatever the response. *)
Theorem district_effect_contained (code : string) (r : response) (st : Dashboard) :
  fst (district_effect code r st) = Some tt /\
  district (snd (district_effect code r st)) = district st /\
  alerts (snd (district_effect code r st))
  = (if JSString.truthy code && falls_back r
     then (alerts st ++ ["Failed to fetch live data, showing sample instead."])%list
     else alerts st) /\
  (JSString.truthy code = false -> snd (district_effect code r st) = st).
Proof.
  destruct (JSString.truthy code) eqn:Hcode.
  - rewrite (district_effect_closed code r st Hcode). cbn [fst snd district alerts andb].
    repeat split. discriminate.
  - unfold district_effect. rewrite Hcode. cbn [negb andb]. repeat split.
Qed.

(* ================================================================== *)
(** ** Further properties: detection *)
(* ================================================================== *)

(** Detection ends in one of two ways: one message is shown, or the
    district of a listed entry is selected. *)
Lemma handleDetect_cases (geo : geolocation) (st : Dashboard) :
  (exists message : string,
      In message detect_messages /\ handleDetect geo st = alert message st) \/
  (exists d : District,
      In d SAMPLE_DISTRICTS /\ handleDetect geo st = setDistrict (district_code d) st).
Proof.
  unfold detect_messages.
  destruct geo as [ | |r].
  - left. eexists. split; [|reflexivity]. cbn [In]. auto.
  - left. eexists. split; [|reflexivity]. cbn [In]. auto.
  - destruct r as [|[jd|]].
    + left. eexists. split; [|reflexivity]. cbn [In]. auto.
    + destruct (locality_of jd) as [locality|] eqn:Hloc.
      * destruct (JSValue.truthy locality) eqn:Htruthy.
        -- destruct locality as [ | |b|x|s|items|fields];
             try (left; eexists; split;
                  [|cbn [handleDetect]; unfold try_catch, bind, fetch_json, lift;
                    rewrite Hloc, match_district_throws;
                    [reflexivity | exact Htruthy | discriminate]];
                  cbn [In]; auto).
           rewrite (handleDetect_string jd s st Hloc).
           destruct (first_match s) as [d|] eqn:Hfound.
           ++ right. exists d. split; [|reflexivity].
              unfold first_match in Hfound. apply find_some in Hfound. tauto.
           ++ left. eexists. split; [|reflexivity]. cbn [In]. auto.
        -- left. eexists. split;
             [|cbn [handleDetect]; unfold try_catch, bind, fetch_json, lift;
               rewrite Hloc, (match_district_falsy locality st Htruthy); reflexivity].
           cbn [In]. auto.
      * left. eexists. split;
          [|cbn [handleDetect]; unfold try_catch, bind, fetch_json, lift;
            rewrite Hloc; reflexivity].
        cbn [In]. auto.
    + left. eexists. split; [|reflexivity]. cbn [In]. auto.
Qed.

(** X3.  Whatever the device and the geocoding service answer, detection
    completes, leaves the snapshot and the series alone, and does one of
    two things: it shows exactly one of its four messages and keeps the
    selected district, or it shows nothing and selects the code of a
    listed district. *)
Theorem handleDetect_contained (geo : geolocation) (st : Dashboard) :
  fst (handleDetect geo st) = Some tt /\
  districtInfo (snd (handleDetect geo st)) = districtInfo st /\
  timeseries (snd (handleDetect geo st)) = timeseries st /\
  ((exists message : string,
       In message detect_messages /\ notified st message (snd (handleDetect geo st))) \/
   (alerts (snd (handleDetect geo st)) = alerts st /\
    listed (district (snd (handleDetect geo st))))).
Proof.
  destruct (handleDetect_cases geo st) as [[message [Hin ->]] | [d [Hin ->]]].
  - repeat split. left. exists message. split; [exact Hin | repeat split].
  - repeat split. right. split; [reflexivity|]. exists d. auto.
Qed.

Lemma selectable_listed (code : string) :
  In code selectable_codes -> code = "" \/ listed code.
Proof.
  unfold selectable_codes. intros [<- | Hin]; [left; reflexivity|].
  right. apply in_map_iff in Hin. destruct Hin as [d [Hd Hin]]. exists d. auto.
Qed.

(** A request is only ever sent for the district now selected, and only
    when that is not blank. *)
Lemma rerun_effect_listed (before : string) (now : Dashboard) (sent : list string) :
  district now = "" \/ listed (district now) ->
  Forall listed sent ->
  Forall listed (rerun_effect before now sent).
Proof.
  intros Hnow Hsent. unfold rerun_effect.
  destruct (String.eqb (district now) before); [exact Hsent|].
  destruct (JSString.truthy (district now)) eqn:Htruthy; [|exact Hsent].
  apply Forall_app. split; [exact Hsent|]. constructor; [|constructor].
  destruct Hnow as [Hblank | Hlisted]; [|exact Hlisted].
  rewrite Hblank in Htruthy. discriminate Htruthy.
Qed.

Lemma step_keeps_invariant (s s' : Session) :
  session_invariant s -> step s s' -> session_invariant s'.
Proof.
  intros [Hdistrict [Hpending Hseries]] Hstep.
  destruct Hstep as [code s Hcode | geo s | earlier later code r s Hsplit];
    unfold session_invariant; cbn [view pending].
  - assert (Hnow : district (snd (setDistrict code (view s))) = ""
                   \/ listed (district (snd (setDistrict code (view s)))))
      by (apply selectable_listed; exact Hcode).
    split; [exact Hnow|]. split; [|exact Hseries].
    apply rerun_effect_listed; assumption.
  - assert (Hnow : district (snd (handleDetect geo (view s))) = ""
                   \/ listed (district (snd (handleDetect geo (view s))))).
    { destruct (handleDetect_cases geo (view s)) as [[message [_ ->]] | [d [Hd ->]]].
      - exact Hdistrict.
      - right. exists d. auto. }
    split; [exact Hnow|]. split.
    + apply rerun_effect_listed; assumption.
    + destruct (handleDetect_cases geo (view s)) as [[message [_ ->]] | [d [_ ->]]];
        exact Hseries.
  - rewrite Hsplit in Hpending. apply Forall_app in Hpending.
    destruct Hpending as [Hearlier Hrest].
    split; [|split].
    + destruct (JSString.truthy code) eqn:Hc.
      * rewrite (district_effect_closed code r (view s) Hc). exact Hdistrict.
      * unfold district_effect. rewrite Hc. exact Hdistrict.
    + apply Forall_app. split; [exact Hearlier|]. inversion Hrest. assumption.
    + destruct (JSString.truthy code) eqn:Hc.
      * rewrite (district_effect_closed code r (view s) Hc). apply shown_series_truthy.
      * unfold district_effect. rewrite Hc. exact Hseries.
Qed.

(** X4.  However the Dashboard is used (options picked, detection asked,
    requests answered in any order and in any way), the selected district
    is blank or a listed code, every request in flight is for a listed
    code, and the series given to the charts is never an absent or empty
    value.  So a request that fails shows the name of a listed district:
    the name 'Unknown' cannot appear. *)
Theorem dashboard_invariant (s : Session) :
  reachable s ->
  session_invariant s /\
  forall code : string,
    In code (pending s) ->
    exists d : District,
      In d SAMPLE_DISTRICTS /\ district_code d = code /\
      fallback_name code = district_name d.
Proof.
  intros Hreach.
  assert (Hinv : session_invariant s).
  { induction Hreach as [|s s' _ IH Hstep].
    - split; [left; reflexivity|]. split; [constructor | reflexivity].
    - exact (step_keeps_invariant s s' IH Hstep). }
  split; [exact Hinv|].
  intros code Hin. destruct Hinv as [_ [Hpending _]].
  rewrite Forall_forall in Hpending. destruct (Hpending code Hin) as [d [Hd Hcode]].
  exists d. split; [exact Hd|]. split; [exact Hcode|].
  apply fallback_name_listed; assumption.
Qed.

Lemma dashboard_invariant_witness :
  exists d : District,
    In d SAMPLE_DISTRICTS /\ district_code d = "0520" /\
    fallback_name "0520" = district_name d.
Proof.
  assert (Hreach : reachable {| view := snd (setDistrict "0520" Dashboard_initial);
                                pending := ["0520"] |}).
  { apply (reachable_step Session_initial); [apply reachable_initial|].
    apply (step_choose "0520" Session_initial).
    unfold selectable_codes, SAMPLE_DISTRICTS. cbn [map district_code In]. auto 12. }
  destruct (dashboard_invariant _ Hreach) as [_ Hpending].
  apply Hpending. left. reflexivity.
Defined.

(** X5.  Picking the blank option of the selector clears nothing and
    sends nothing: the snapshot and the series stay, no request is
    added, and while a snapshot is held the page shows the cards of the
    earlier district together with the invitation to select one. *)
Theorem blank_option_keeps_cards (s : Session) :
  JSValue.truthy (districtInfo (view s)) = true ->
  let s' := {| view := snd (setDistrict "" (view s));
               pending := rerun_effect (district (view s))
                                       (snd (setDistrict "" (view s))) (pending s) |} in
  step s s' /\
  pending s' = pending s /\
  districtInfo (view s') = districtInfo (view s) /\
  timeseries (view s') = timeseries (view s) /\
  In (Fixed ("Select a district or use " ++ dquote ++ "Detect my district"
             ++ dquote ++ " to begin."))
     (Dashboard_labels (view s')) /\
  In (ByLang "कुल व्यक्ति" "Total Individuals") (Dashboard_labels (view s')).
Proof.
  intros Hinfo. cbv zeta. split; [|split; [|split; [|split; [|split]]]].
  - apply step_choose. left. reflexivity.
  - unfold rerun_effect. cbn [setDistrict snd district pending JSString.truthy].
    destruct (String.eqb "" (district (view s))); reflexivity.
  - reflexivity.
  - reflexivity.
  - unfold Dashboard_labels. cbn [view setDistrict snd district districtInfo JSString.truthy negb].
    apply in_or_app. right. apply in_or_app. right. apply in_or_app. left.
    left. reflexivity.
  - unfold Dashboard_labels. cbn [view setDistrict snd district districtInfo].
    rewrite Hinfo.
    apply in_or_app. right. apply in_or_app. right. apply in_or_app. right.
    left. reflexivity.
Qed.

Lemma blank_option_keeps_cards_witness :
  In (ByLang "कुल व्यक्ति" "Total Individuals")
     (Dashboard_labels
        (snd (setDistrict ""
                (snd (district_effect "0501" NetworkError
                        (snd (setDistrict "0501" Dashboard_initial))))))).
Proof.
  destruct (blank_option_keeps_cards
              {| view := snd (district_effect "0501" NetworkError
                                (snd (setDistrict "0501" Dashboard_initial)));
                 pending := [] |} eq_refl) as [_ [_ [_ [_ [_ Hcards]]]]].
  exact Hcards.
Defined.

(** X6.  A locality that is the name of a listed district, in any mix of
    upper and lower case, selects that very district. *)
Theorem own_name_is_detected (jd : value) (locality : string) (d : District)
        (st : Dashboard) :
  In d SAMPLE_DISTRICTS ->
  JSString.toUpperCase locality = district_name d ->
  locality_of jd = Some (VStr locality) ->
  first_match locality = Some d /\
  handleDetect (GeoPosition (Body (Some jd))) st = setDistrict (district_code d) st.
Proof.
  intros Hin Hname Hloc.
  assert (Hfound : first_match locality = Some d).
  { unfold first_match. rewrite Hname.
    unfold SAMPLE_DISTRICTS in Hin. cbn [In] in Hin.
    repeat (destruct Hin as [<- | Hin]; [vm_compute; reflexivity|]).
    contradiction. }
  split; [exact Hfound|].
  rewrite (handleDetect_string jd locality st Hloc), Hfound. reflexivity.
Qed.

Lemma own_name_is_detected_witness :
  handleDetect (GeoPosition (Body (Some (VObj [("locality", VStr "Purbi Champaran")]))))
               Dashboard_initial
  = setDistrict "0513" Dashboard_initial.
Proof.
  apply (own_name_is_detected (VObj [("locality", VStr "Purbi Champaran")])
           "Purbi Champaran"
           {| district_code := "0513"; district_name := "PURBI CHAMPARAN" |}
           Dashboard_initial).
  - unfold SAMPLE_DISTRICTS. cbn [In]. auto 12.
  - reflexivity.
  - reflexivity.
Defined.

(** X7.  The service's answer is read in a fixed order of preference:
    when it gives no usable locality its city is searched, and when it
    gives no usable city either its principal subdivision is. *)
Theorem locality_falls_back (fields : list (string * value)) (s : string) (st : Dashboard) :
  JSString.truthy s = true ->
  field_of fields "locality" = VStr s
  \/ (JSValue.truthy (field_of fields "locality") = false
      /\ (field_of fields "city" = VStr s
          \/ (JSValue.truthy (field_of fields "city") = false
              /\ field_of fields "principalSubdivision" = VStr s))) ->
  locality_of (VObj fields) = Some (VStr s) /\
  handleDetect (GeoPosition (Body (Some (VObj fields)))) st
  = match first_match s with
    | Some d => setDistrict (district_code d) st
    | None => alert "Could not auto-detect district. Please select from list." st
    end.
Proof.
  intros Hs Hcases.
  assert (Hget : forall key, JSValue.get (VObj fields) key = Some (field_of fields key)).
  { intros key. unfold field_of. cbn [JSValue.get].
    destruct (JSValue.lookup fields key); reflexivity. }
  assert (Hloc : locality_of (VObj fields) = Some (VStr s)).
  { unfold locality_of. rewrite !Hget.
    destruct Hcases as [Hl | [Hl [Hc | [Hc Hp]]]].
    - rewrite Hl. cbn [JSValue.truthy]. rewrite Hs. reflexivity.
    - rewrite Hl, Hc. cbn [JSValue.truthy]. rewrite Hs. reflexivity.
    - rewrite Hl, Hc, Hp. reflexivity. }
  split; [exact Hloc|].
  apply handleDetect_string. exact Hloc.
Qed.

Lemma locality_falls_back_witness :
  handleDetect
    (GeoPosition (Body (Some (VObj [("locality", VStr ""); ("city", VStr "Nawada")]))))
    Dashboard_initial
  = setDistrict "0508" Dashboard_initial.
Proof.
  destruct (locality_falls_back [("locality", VStr ""); ("city", VStr "Nawada")]
              "Nawada" Dashboard_initial eq_refl) as [_ Hdetect].
  - right. split; [reflexivity|]. left. reflexivity.
  - rewrite Hdetect. reflexivity.
Defined.

(* ================================================================== *)
(** ** Further properties: the year selection and its table *)
(* ================================================================== *)

Lemma not_selected (year : string) (l : list string) :
  existsb (String.eqb year) l = false <-> ~ In year l.
Proof.
  split.
  - intros Hex Hin. rewrite <- not_true_iff_false in Hex. apply Hex.
    apply existsb_exists. exists year. split; [exact Hin | apply String.eqb_refl].
  - intros Hout. apply not_true_iff_false. intros Hex.
    apply existsb_exists in Hex. destruct Hex as [y [Hy Heq]].
    apply String.eqb_eq in Heq. subst y. contradiction.
Qed.

Lemma filter_keeps_others (year : string) (l : list string) :
  ~ In year l -> filter (fun y => negb (String.eqb y year)) l = l.
Proof.
  induction l as [|x l IH]; intros Hout; [reflexivity|].
  cbn [filter]. destruct (String.eqb_spec x year) as [->|Hne].
  - elim Hout. left. reflexivity.
  - cbn [negb]. rewrite IH; [reflexivity|]. intros Hin. apply Hout. right. exact Hin.
Qed.

(** X8.  Checking a year that is not selected and then unchecking it
    gives the selection back as it was, order included; in between the
    year is selected, as the last one. *)
Theorem year_checked_then_unchecked (year : string) (prev : list string) :
  ~ In year prev ->
  handleYearChange year true prev = (prev ++ [year])%list /\
  In year (handleYearChange year true prev) /\
  handleYearChange year false (handleYearChange year true prev) = prev.
Proof.
  intros Hout. cbn [handleYearChange].
  split; [reflexivity|]. split; [apply in_or_app; right; left; reflexivity|].
  rewrite filter_app, (filter_keeps_others year prev Hout).
  cbn [filter]. rewrite String.eqb_refl. cbn [negb]. apply app_nil_r.
Qed.

Lemma year_checked_then_unchecked_witness :
  handleYearChange "2024-25" false (handleYearChange "2024-25" true ["2023-24"])
  = ["2023-24"].
Proof.
  destruct (year_checked_then_unchecked "2024-25" ["2023-24"]) as [_ [_ Hback]].
  - intros [Heq | []]. discriminate Heq.
  - exact Hback.
Defined.

Section Rows.

Import JSValue.

Lemma lookup_app (a b : list (string * value)) (key : string) :
  lookup (a ++ b) key
  = match lookup a key with
    | Some v => Some v
    | None => lookup b key
    end.
Proof.
  induction a as [|[k v] a IH]; cbn [lookup app]; [reflexivity|].
  destruct (String.eqb k key); [reflexivity | exact IH].
Qed.

Lemma assign_fresh (fields : list (string * value)) (key : string) (v : value) :
  lookup fields key = None -> assign fields key v = (fields ++ [(key, v)])%list.
Proof.
  induction fields as [|[k w] rest IH]; cbn [lookup assign app]; [reflexivity|].
  destruct (String.eqb k key); [discriminate|].
  intros Hrest. rewrite (IH Hrest). reflexivity.
Qed.

(** Writing the fields of distinct new keys appends them in order. *)
Lemma fold_assign_fresh (g : string -> value) (selected : list string)
      (init : list (string * value)) :
  NoDup selected ->
  (forall year, In year selected -> lookup init year = None) ->
  fold_left (fun point year => assign point year (g year)) selected init
  = (init ++ map (fun year => (year, g year)) selected)%list.
Proof.
  intros Hnodup. revert init.
  induction Hnodup as [|y rest Hy _ IH]; intros init Hfresh; cbn [fold_left map].
  - symmetry. apply app_nil_r.
  - rewrite (assign_fresh init y (g y)) by (apply Hfresh; left; reflexivity).
    rewrite IH.
    + rewrite <- app_assoc. reflexivity.
    + intros z Hz. rewrite lookup_app, (Hfresh z (or_intror Hz)).
      cbn [lookup]. destruct (String.eqb_spec y z) as [->|_]; [contradiction | reflexivity].
Qed.

End Rows.

Lemma combinedData_rows (selected : list string) (data : year_data) :
  NoDup selected ->
  ~ In "month" selected ->
  combinedData selected data = map (row_of selected data) months.
Proof.
  intros Hnodup Hmonth. unfold combinedData, row_of.
  apply map_ext. intros mth.
  rewrite (fold_assign_fresh (fun year => VNum (expenditure_or_zero data year mth)));
    [reflexivity | exact Hnodup |].
  intros year Hin. cbn [JSValue.lookup].
  destruct (String.eqb_spec "month" year) as [<-|_]; [contradiction | reflexivity].
Qed.

Lemma selection_stays_sound (s : StateComparisonState) :
  selection_reachable s ->
  NoDup (selectedYears s) /\
  incl (selectedYears s) year_options /\
  data s = mockStateData.
Proof.
  induction 1 as [|year s Hyear _ [Hnodup [Hincl Hdata]]].
  - split; [|split; [|reflexivity]].
    + repeat constructor; cbn [In]; intuition discriminate.
    + intros y Hy. exact Hy.
  - unfold click_year. cbn [selectedYears data].
    destruct (existsb (String.eqb year) (selectedYears s)) eqn:Hsel; cbn [negb handleYearChange].
    + split; [|split; [|exact Hdata]].
      * apply NoDup_filter. exact Hnodup.
      * intros y Hy. apply filter_In in Hy. apply Hincl. tauto.
    + apply not_selected in Hsel. split; [|split; [|exact Hdata]].
      * apply NoDup_app; [exact Hnodup | repeat constructor; intros [] |].
        intros y Hy [<- | []]. contradiction.
      * intros y Hy. apply in_app_or in Hy. destruct Hy as [Hy | [<- | []]]; auto.
Qed.

(** X9.  However the year checkboxes are clicked, no year is selected
    twice, every selected year is one of the years on offer, and the
    table has one row per month made of the month followed by one field
    per selected year, in the order the years were checked. *)
Theorem selection_reachable_table (s : StateComparisonState) :
  selection_reachable s ->
  NoDup (selectedYears s) /\
  incl (selectedYears s) year_options /\
  combinedData (selectedYears s) (data s)
  = map (row_of (selectedYears s) mockStateData) months.
Proof.
  intros Hreach.
  destruct (selection_stays_sound s Hreach) as [Hnodup [Hincl Hdata]].
  split; [exact Hnodup|]. split; [exact Hincl|].
  rewrite Hdata. apply combinedData_rows; [exact Hnodup|].
  intros Hmonth. apply Hincl in Hmonth.
  unfold year_options, mockStateData in Hmonth. cbn [map fst In] in Hmonth.
  intuition discriminate.
Qed.

Lemma selection_reachable_table_witness :
  combinedData ["2024-25"] mockStateData = map (row_of ["2024-25"] mockStateData) months.
Proof.
  assert (Hreach : selection_reachable (click_year "2023-24" StateComparison_mounted)).
  { apply reach_click; [|apply reach_mounted].
    unfold year_options, mockStateData. cbn [map fst In]. auto. }
  destruct (selection_reachable_table _ Hreach) as [_ [_ Htable]].
  exact Htable.
Defined.

(** X10.  While the selected years are among the years on offer, and
    whatever data is held, a selected year's field in a month's row is
    always a number, never NaN and never missing.  It is 0 as long as the
    data has no series for that year, which is the case before the mock
    data is stored. *)
Theorem combinedData_never_NaN (selected : list string) (data : year_data)
        (i : nat) (mth year : string) (row : list (string * value)) :
  incl selected year_options ->
  nth_error months i = Some mth ->
  nth_error (combinedData selected data) i = Some row ->
  In year selected ->
  exists x : number,
    JSValue.lookup row year = Some (VNum x) /\
    x <> NaN /\
    (JSNumber.truthy x = true \/ x = #0) /\
    (year_series data year = None -> x = #0).
Proof.
  intros _ Hm Hrow Hin.
  exists (expenditure_or_zero data year mth).
  split; [exact (combinedData_field selected data i mth year row Hm Hrow Hin)|].
  unfold expenditure_or_zero.
  destruct (year_series data year) as [series|].
  - destruct (find (fun m => String.eqb (month m) mth) series) as [m|].
    + destruct (JSNumber.truthy (expenditure m)) eqn:Ht.
      * split; [|split; [left; exact Ht | discriminate]].
        intros Hnan. rewrite Hnan in Ht. discriminate Ht.
      * split; [discriminate|]. split; [right; reflexivity | discriminate].
    + split; [discriminate|]. split; [right; reflexivity | discriminate].
  - split; [discriminate|]. split; [right; reflexivity | reflexivity].
Qed.

Lemma combinedData_never_NaN_witness :
  exists x : number,
    JSValue.lookup [("month", VStr "Apr"); ("2023-24", VNum #12000); ("2024-25", VNum #13000)]
                   "2024-25"
    = Some (VNum x) /\
    x <> NaN /\
    (JSNumber.truthy x = true \/ x = #0) /\
    (year_series mockStateData "2024-25" = None -> x = #0).
Proof.
  apply (combinedData_never_NaN ["2023-24"; "2024-25"] mockStateData 0 "Apr" "2024-25"
           [("month", VStr "Apr"); ("2023-24", VNum #12000); ("2024-25", VNum #13000)]).
  - intros y Hy. exact Hy.
  - reflexivity.
  - vm_compute. reflexivity.
  - right. left. reflexivity.
Defined.

(* ================================================================== *)
(** ** Further properties: the mock series of the Compare page *)
(* ================================================================== *)

Lemma factor_of_digit (code : string) (d : Z) :
  0 <= d <= 9 ->
  JSString.slice_last code = String (digit_char d) EmptyString ->
  factor code = #(d mod 5 + 8).
Proof.
  intros Hd Hlast. unfold factor.
  rewrite (slice_last_nonempty _ _ Hlast), Hlast.
  destruct (digit_cases d Hd) as [-> | [-> | [-> | [-> | [-> | [-> | [-> | [-> | [-> | ->]]]]]]]]];
    vm_compute; reflexivity.
Qed.

(** X11.  Two district codes whose last digits leave the same remainder
    modulo 5 get the very same mock series: the scheme tells at most
    five districts apart. *)
Theorem same_remainder_same_series (code code' : string) (d d' : Z) :
  0 <= d <= 9 -> 0 <= d' <= 9 ->
  JSString.slice_last code = String (digit_char d) EmptyString ->
  JSString.slice_last code' = String (digit_char d') EmptyString ->
  d mod 5 = d' mod 5 ->
  getMock code = getMock code'.
Proof.
  intros Hd Hd' Hlast Hlast' Hmod. unfold getMock.
  rewrite (factor_of_digit code d Hd Hlast), (factor_of_digit code' d' Hd' Hlast'), Hmod.
  reflexivity.
Qed.

Lemma same_remainder_same_series_witness : getMock "0501" = getMock "0506".
Proof.
  apply (same_remainder_same_series "0501" "0506" 1 6); try lia; reflexivity.
Defined.

Lemma parseInt_not_digit (c : ascii) :
  is_digit c = false -> parseInt (String c EmptyString) = NaN.
Proof.
  intros Hc.
  destruct c as [[] [] [] [] [] [] [] []];
    solve [vm_compute in Hc; discriminate Hc | vm_compute; reflexivity].
Qed.

Lemma mul_NaN (x : number) : mul x NaN = NaN.
Proof.
  destruct x; reflexivity.
Qed.

(** X12.  A code that is not empty and does not end in a digit makes the
    factor NaN, and then every persondays and expenditure value of the
    mock series is NaN; the months and the households are still those of
    the base series. *)
Theorem non_digit_code_gives_NaN (code : string) (c : ascii) :
  JSString.slice_last code = String c EmptyString ->
  is_digit c = false ->
  factor code = NaN /\
  Forall (fun p => persondays p = NaN /\ expenditure p = NaN) (getMock code) /\
  map month (getMock code) = map month SAMPLE_TIMESERIES /\
  map households (getMock code) = map households SAMPLE_TIMESERIES.
Proof.
  intros Hlast Hc.
  assert (Hfactor : factor code = NaN).
  { unfold factor. rewrite (slice_last_nonempty _ _ Hlast), Hlast.
    rewrite (parseInt_not_digit c Hc). reflexivity. }
  split; [exact Hfactor|]. unfold getMock. rewrite Hfactor, map_id.
  split; [|split].
  - apply Forall_forall. intros p Hp. apply in_map_iff in Hp.
    destruct Hp as [b [<- _]]. cbn [persondays expenditure].
    rewrite !mul_NaN. split; reflexivity.
  - rewrite map_map. reflexivity.
  - rewrite map_map. reflexivity.
Qed.

Lemma non_digit_code_gives_NaN_witness :
  Forall (fun p => persondays p = NaN /\ expenditure p = NaN) (getMock "05A").
Proof.
  destruct (non_digit_code_gives_NaN "05A" "A" eq_refl eq_refl) as [_ [Hnan _]].
  exact Hnan.
Defined.
